(** * pbix-uploader-api: upload-and-confirm orchestration

    A shallow embedding of the two programs of the repository,

    - [main.py]          the FastAPI service ([Module Main]),
    - [upload_report.py] the standalone script ([Module UploadReport]),

    followed by the properties of the token / fetch / upload / confirm
    workflow.

    Modelling conventions.
    - Python [str] is [string]; [bytes] is [list Byte.byte]; a [dict] with string
      keys is a [gmap string _]; HTTP status codes are [Z].
    - Every outbound action (identity provider, blob store, HTTP request,
      [time.sleep], [print]) appends an [event] to the log of the run.
      What the outside answers is fixed by a [world]: one token result, one
      blob result, one answer to the import request, and the answer to the
      k-th listing request for every k.
    - The programs run in a state-and-exception monad [M] over that log.
    - An HTTP request always yields a response, and the body of a listing
      response is typed as the platform documents it: an object with an
      optional [value] array of reports that each have a [name] and an [id].
    - [str.lower] belongs to the interpreter, not to the repository: it is
      the field [str_lower] of the [world], and every property holds
      whatever function it is. *)

From Stdlib Require Import ZArith Ascii String List Lia.
From stdpp Require Import base option list strings gmap pretty.

Open Scope Z_scope.

(** ** Python strings *)

Module PyStr.

(** [str(x)] inside an f-string, for a value that may be [None]. *)
Definition fmt (o : option string) : string :=
  match o with
  | Some s => s
  | None => "None"
  end.

(** Truthiness of a [str]: [not s] holds exactly for the empty string. *)
Definition truthy (s : string) : bool :=
  match s with
  | EmptyString => false
  | String _ _ => true
  end.

(** Truthiness of a [str | None]. *)
Definition truthy_opt (o : option string) : bool :=
  match o with
  | Some s => truthy s
  | None => false
  end.

(** [", ".join(l)] *)
Fixpoint join (sep : string) (l : list string) : string :=
  match l with
  | [] => ""
  | [x] => x
  | x :: rest => x +:+ sep +:+ join sep rest
  end.

(** Digits of [f"{n:,}"]: the decimal digits of [n], least significant
    first, with a comma after every third digit that has a successor. *)
Fixpoint commas_rev (digits : list ascii) (k : nat) : list ascii :=
  match digits with
  | [] => []
  | d :: rest =>
      match k, rest with
      | 2%nat, _ :: _ => d :: ","%char :: commas_rev rest 0
      | _, _ => d :: commas_rev rest (S k)
      end
  end.

(** [f"{n:,}"] for a natural number. *)
Definition fmt_thousands (n : nat) : string :=
  string_of_list_ascii
    (rev (commas_rev (rev (list_ascii_of_string (pretty n))) 0)).

(** Number of occurrences of the character [c] in [s]: [s.count(c)]. *)
Fixpoint count (c : ascii) (s : string) : nat :=
  match s with
  | EmptyString => 0%nat
  | String d rest => ((if Ascii.eqb c d then 1 else 0) + count c rest)%nat
  end.

(** [s.split(sep)] for a one-character separator. *)
Fixpoint split (sep : ascii) (s : string) : list string :=
  match s with
  | EmptyString => [""]
  | String d rest =>
      if Ascii.eqb sep d then "" :: split sep rest
      else match split sep rest with
           | [] => [String d ""]
           | w :: ws => String d w :: ws
           end
  end.

End PyStr.

(** ** Data exchanged with the outside *)

(** One entry of the listing's [value] array: [report["name"]], [report["id"]]. *)
Module Report.
Record t := { name : string; id : string }.
End Report.

(** The decoded body of a listing response; [value] is [None] when the
    object has no such key. *)
Record listing := { value : option (list Report.t) }.

(** A [requests.Response]: the fields the programs read. *)
Record response := {
  status_code : Z;
  text : string;
  json : listing
}.

(** [resp.ok]: [raise_for_status] raises exactly for 400 <= status < 600. *)
Definition ok (resp : response) : bool :=
  negb ((400 <=? status_code resp) && (status_code resp <? 600)).

(** One part of a multipart upload: (filename, content, content type). *)
Record file_part := {
  filename : string;
  content : list Byte.byte;
  content_type : string
}.

(** Exceptions that the programs raise or see. *)
Inductive exn :=
| HTTPException (status : Z) (detail : string)   (* fastapi.HTTPException *)
| SystemExit (code : Z)                          (* sys.exit(code) *)
| StoreException (msg : string).                 (* an Exception of the blob SDK; str(e) = msg *)

(** [str(e)]; an [HTTPException] renders as [status: detail], a
    [SystemExit] as its code.  Only a store exception ever reaches the
    handler that calls it. *)
Definition str_exn (e : exn) : string :=
  match e with
  | HTTPException st d => pretty st +:+ ": " +:+ d
  | SystemExit c => pretty c
  | StoreException msg => msg
  end.

(** [isinstance(e, Exception)]: [SystemExit] derives from [BaseException] only. *)
Definition is_Exception (e : exn) : bool :=
  match e with
  | SystemExit _ => false
  | _ => true
  end.

(** Outbound actions, in the order the run performs them. *)
Inductive event :=
| AcquireToken (client_id : option string) (authority : string)
               (client_credential : option string) (scopes : list string)
| DownloadBlob (connection_string container blob : option string)
| Post (url : string) (headers : gmap string string) (files : gmap string file_part)
| Get (url : string) (headers : gmap string string)
| Sleep (seconds : Z)
| Print (line : string).

(** What a run takes from outside the repository: the interpreter's
    [str.lower], the environment, and the answers of the outside. *)
Record world := {
  str_lower : string -> string;                (* s.lower() *)
  environ : gmap string string;                (* os.environ after load_dotenv() *)
  token_result : gmap string string;           (* acquire_token_for_client(...) *)
  blob_result : string + list Byte.byte;           (* inl msg: the SDK raises; inr data *)
  import_response : response;                  (* answer to the POST *)
  listing_response : nat -> response           (* answer to the k-th GET, k = 0, 1, ... *)
}.

(** State of a run: the number of listing requests sent so far and the log. *)
Record state := {
  gets : nat;
  log : list event
}.

Definition start : state := {| gets := 0; log := [] |}.

(** ** The monad of runs *)

Definition M (A : Type) : Type := state -> (exn + A) * state.

#[global] Instance M_ret : MRet M := fun A x s => (inr x, s).

#[global] Instance M_bind : MBind M := fun A B f m s =>
  match m s with
  | (inl e, s') => (inl e, s')
  | (inr x, s') => f x s'
  end.

Definition raise {A} (e : exn) : M A := fun s => (inl e, s).

(** [try: body  except Exception as e: handler(e)] *)
Definition try_except {A} (body : M A) (handler : exn -> M A) : M A := fun s =>
  match body s with
  | (inl e, s') => if is_Exception e then handler e s' else (inl e, s')
  | r => r
  end.

Definition emit (ev : event) : M unit := fun s =>
  (inr tt, {| gets := gets s; log := log s ++ [ev] |}).

Definition print (line : string) : M unit := emit (Print line).

Definition exec {A} (m : M A) : (exn + A) * state := m start.

(** ** Library calls *)

Section Effects.

Variable w : world.

(** [msal.ConfidentialClientApplication(client_id, authority=...,
    client_credential=...).acquire_token_for_client(scopes=...)] *)
Definition acquire_token_for_client
    (client_id : option string) (authority : string)
    (client_credential : option string) (scopes : list string)
    : M (gmap string string) :=
  emit (AcquireToken client_id authority client_credential scopes);;
  mret (token_result w).

(** [BlobServiceClient.from_connection_string(c).get_container_client(k)
    .get_blob_client(b).download_blob().readall()] *)
Definition download_blob_readall
    (connection_string container blob : option string) : M (list Byte.byte) :=
  emit (DownloadBlob connection_string container blob);;
  match blob_result w with
  | inl msg => raise (StoreException msg)
  | inr data => mret data
  end.

(** [requests.post(url, headers=headers, files=files)] *)
Definition requests_post (url : string) (headers : gmap string string)
    (files : gmap string file_part) : M response :=
  emit (Post url headers files);;
  mret (import_response w).

(** [requests.get(url, headers=headers)] *)
Definition requests_get (url : string) (headers : gmap string string)
    : M response := fun s =>
  (inr (listing_response w (gets s)),
   {| gets := S (gets s); log := log s ++ [Get url headers] |}).

(** [time.sleep(seconds)] *)
Definition sleep (seconds : Z) : M unit := emit (Sleep seconds).

End Effects.

(** ** main.py: the FastAPI service *)

Module Main.

Module UploadRequest.
Record t := { workspace_id : string; report_name : string }.
End UploadRequest.

Module UploadResponse.
Record t := {
  message : string;
  workspace_id : string;
  report_name : string;
  report_id : option string
}.
End UploadResponse.

Section Run.

Variable w : world.

Definition TENANT_ID := environ w !! "TENANT_ID".
Definition CLIENT_ID := environ w !! "CLIENT_ID".
Definition CLIENT_SECRET := environ w !! "CLIENT_SECRET".
Definition AZURE_STORAGE_CONNECTION_STRING :=
  environ w !! "AZURE_STORAGE_CONNECTION_STRING".
Definition BLOB_CONTAINER := environ w !! "BLOB_CONTAINER".
Definition EMPTY_PBIX_NAME := environ w !! "EMPTY_PBIX_NAME".

Definition POWERBI_SCOPE : list string :=
  ["https://analysis.windows.net/powerbi/api/.default"].
Definition POWERBI_API : string := "https://api.powerbi.com/v1.0/myorg".

Definition get_access_token : M string :=
  result ← acquire_token_for_client w CLIENT_ID
             ("https://login.microsoftonline.com/" +:+ PyStr.fmt TENANT_ID)
             CLIENT_SECRET POWERBI_SCOPE;
  match result !! "access_token" with
  | None =>
      raise (HTTPException 500
               ("Token error: " +:+ PyStr.fmt (result !! "error_description")))
  | Some access_token => mret access_token
  end.

Definition download_empty_pbix : M (list Byte.byte) :=
  try_except
    (download_blob_readall w AZURE_STORAGE_CONNECTION_STRING
       BLOB_CONTAINER EMPTY_PBIX_NAME)
    (fun e =>
       raise (HTTPException 500 ("Blob download failed: " +:+ str_exn e))).

(** The inner loop of [fetch_report_id]: the id of the first report of
    the listing whose lowered name equals the lowered [report_name]. *)
Fixpoint find_report (reports : list Report.t) (report_name : string)
    : option string :=
  match reports with
  | [] => None
  | report :: rest =>
      if String.eqb (str_lower w (Report.name report)) (str_lower w report_name)
      then Some (Report.id report)
      else find_report rest report_name
  end.

(** The outer loop of [fetch_report_id], over the values of [range(8)]
    that remain. *)
Fixpoint poll (attempts : list nat) (reports_url : string)
    (headers : gmap string string) (report_name : string)
    : M (option string) :=
  match attempts with
  | [] => mret None
  | _ :: rest =>
      sleep 3;;
      resp ← requests_get w reports_url headers;
      match (if ok resp
             then find_report (default [] (value (json resp))) report_name
             else None) with
      | Some report_id => mret (Some report_id)
      | None => poll rest reports_url headers report_name
      end
  end.

Definition fetch_report_id (headers : gmap string string)
    (workspace_id report_name : string) : M (option string) :=
  let reports_url := POWERBI_API +:+ "/groups/" +:+ workspace_id +:+ "/reports" in
  poll (seq 0 8) reports_url headers report_name.

Definition upload_report (body : UploadRequest.t) : M UploadResponse.t :=
  (* 1. Auth *)
  access_token ← get_access_token;
  let headers : gmap string string :=
    {[ "Authorization" := "Bearer " +:+ access_token ]} in
  (* 2. Download template from blob *)
  pbix_bytes ← download_empty_pbix;
  (* 3. Upload to Power BI *)
  let upload_url :=
    POWERBI_API +:+ "/groups/" +:+ UploadRequest.workspace_id body +:+ "/imports"
    +:+ "?datasetDisplayName=" +:+ UploadRequest.report_name body
    +:+ "&nameConflict=CreateOrOverwrite" in
  let files : gmap string file_part :=
    {[ "file" := {| filename := UploadRequest.report_name body +:+ ".pbix";
                    content := pbix_bytes;
                    content_type := "application/vnd.ms-powerbi.pbix" |} ]} in
  resp ← requests_post w upload_url headers files;
  if negb (bool_decide (status_code resp ∈ [200; 201; 202]))
  then raise (HTTPException (status_code resp) (text resp))
  else
    (* 4. Poll for report ID *)
    report_id ← fetch_report_id headers (UploadRequest.workspace_id body)
                  (UploadRequest.report_name body);
    mret {| UploadResponse.message :=
              if PyStr.truthy_opt report_id
              then "Report uploaded successfully"
              else "Upload accepted but report ID not yet confirmed";
            UploadResponse.workspace_id := UploadRequest.workspace_id body;
            UploadResponse.report_name := UploadRequest.report_name body;
            UploadResponse.report_id := report_id |}.

End Run.

End Main.

(** ** upload_report.py: the standalone script *)

Module UploadReport.

Module Args.
Record t := { workspace_id : string; report_name : string }.
End Args.

Section Run.

Variable w : world.

Definition TENANT_ID := environ w !! "TENANT_ID".
Definition CLIENT_ID := environ w !! "CLIENT_ID".
Definition CLIENT_SECRET := environ w !! "CLIENT_SECRET".
Definition AZURE_STORAGE_CONNECTION_STRING :=
  environ w !! "AZURE_STORAGE_CONNECTION_STRING".
Definition BLOB_CONTAINER := environ w !! "BLOB_CONTAINER".
Definition EMPTY_PBIX_NAME := environ w !! "EMPTY_PBIX_NAME".

Definition POWERBI_SCOPE : list string :=
  ["https://analysis.windows.net/powerbi/api/.default"].
Definition POWERBI_API : string := "https://api.powerbi.com/v1.0/myorg".

Definition get_access_token : M string :=
  result ← acquire_token_for_client w CLIENT_ID
             ("https://login.microsoftonline.com/" +:+ PyStr.fmt TENANT_ID)
             CLIENT_SECRET POWERBI_SCOPE;
  match result !! "access_token" with
  | None =>
      print ("ERROR: Failed to acquire token: "
             +:+ PyStr.fmt (result !! "error_description"));;
      raise (SystemExit 1)
  | Some access_token =>
      print "✓ Access token acquired.";;
      mret access_token
  end.

Definition download_empty_pbix : M (list Byte.byte) :=
  data ← download_blob_readall w AZURE_STORAGE_CONNECTION_STRING
           BLOB_CONTAINER EMPTY_PBIX_NAME;
  print ("✓ Downloaded '" +:+ PyStr.fmt EMPTY_PBIX_NAME +:+ "' from blob ("
         +:+ PyStr.fmt_thousands (length data) +:+ " bytes).");;
  mret data.

Definition upload_to_workspace (access_token workspace_id report_name : string)
    (pbix_bytes : list Byte.byte) : M (gmap string string) :=
  let headers : gmap string string :=
    {[ "Authorization" := "Bearer " +:+ access_token ]} in
  let upload_url :=
    POWERBI_API +:+ "/groups/" +:+ workspace_id +:+ "/imports"
    +:+ "?datasetDisplayName=" +:+ report_name
    +:+ "&nameConflict=CreateOrOverwrite" in
  let files : gmap string file_part :=
    {[ "file" := {| filename := report_name +:+ ".pbix";
                    content := pbix_bytes;
                    content_type := "application/vnd.ms-powerbi.pbix" |} ]} in
  print ("↑ Uploading report '" +:+ report_name +:+ "' to workspace "
         +:+ workspace_id +:+ " ...");;
  resp ← requests_post w upload_url headers files;
  if negb (bool_decide (status_code resp ∈ [200; 201; 202]))
  then
    print ("ERROR: Upload failed (" +:+ pretty (status_code resp) +:+ "): "
           +:+ text resp);;
    raise (SystemExit 1)
  else
    print ("✓ Upload accepted (HTTP " +:+ pretty (status_code resp)
           +:+ "). Waiting for Power BI to process...");;
    mret headers.

(** The inner loop of [fetch_report_id]. *)
Fixpoint find_report (reports : list Report.t) (report_name : string)
    : option string :=
  match reports with
  | [] => None
  | report :: rest =>
      if String.eqb (str_lower w (Report.name report)) (str_lower w report_name)
      then Some (Report.id report)
      else find_report rest report_name
  end.

(** The outer loop of [fetch_report_id], over the values of [range(8)]
    that remain. *)
Fixpoint poll (attempts : list nat) (reports_url : string)
    (headers : gmap string string) (report_name : string)
    : M (option string) :=
  match attempts with
  | [] => mret None
  | attempt :: rest =>
      sleep 3;;
      resp ← requests_get w reports_url headers;
      match (if ok resp
             then find_report (default [] (value (json resp))) report_name
             else None) with
      | Some report_id => mret (Some report_id)
      | None =>
          print ("  Attempt " +:+ pretty (attempt + 1)%nat
                 +:+ ": report not found yet, retrying...");;
          poll rest reports_url headers report_name
      end
  end.

Definition fetch_report_id (headers : gmap string string)
    (workspace_id report_name : string) : M (option string) :=
  let reports_url := POWERBI_API +:+ "/groups/" +:+ workspace_id +:+ "/reports" in
  poll (seq 0 8) reports_url headers report_name.

Definition required_env : list string :=
  ["TENANT_ID"; "CLIENT_ID"; "CLIENT_SECRET";
   "AZURE_STORAGE_CONNECTION_STRING"; "BLOB_CONTAINER"; "EMPTY_PBIX_NAME"].

Definition main (args : Args.t) : M unit :=
  (* Validate required env vars *)
  let missing :=
    List.filter (fun v => negb (PyStr.truthy_opt (environ w !! v))) required_env in
  match missing with
  | _ :: _ =>
      print ("ERROR: Missing environment variables: " +:+ PyStr.join ", " missing);;
      raise (SystemExit 1)
  | [] =>
      token ← get_access_token;
      pbix_bytes ← download_empty_pbix;
      headers ← upload_to_workspace token (Args.workspace_id args)
                  (Args.report_name args) pbix_bytes;
      report_id ← fetch_report_id headers (Args.workspace_id args)
                    (Args.report_name args);
      if PyStr.truthy_opt report_id
      then
        print (String "010" "✅ Success!");;
        print ("   Report Name : " +:+ Args.report_name args);;
        print ("   Report ID   : " +:+ PyStr.fmt report_id);;
        print ("   Workspace ID: " +:+ Args.workspace_id args)
      else
        print (String "010" "⚠️  Upload succeeded but report ID could not be confirmed (may still be processing).");;
        print ("   Check workspace " +:+ Args.workspace_id args
               +:+ " in Power BI portal.")
  end.

End Run.

End UploadReport.

(** ** Vocabulary of the properties *)

Definition is_post (e : event) : bool :=
  match e with Post _ _ _ => true | _ => false end.

Definition is_get (e : event) : bool :=
  match e with Get _ _ => true | _ => false end.

Definition is_print (e : event) : bool :=
  match e with Print _ => true | _ => false end.

(** A call to the object store or to the platform. *)
Definition is_store_or_platform (e : event) : bool :=
  match e with
  | DownloadBlob _ _ _ | Post _ _ _ | Get _ _ => true
  | _ => false
  end.

Definition posts (l : list event) : list event := List.filter is_post l.

Definition listing_calls (l : list event) : list event := List.filter is_get l.

Definition without_prints (l : list event) : list event :=
  List.filter (fun e => negb (is_print e)) l.

(** Total time spent in [time.sleep]. *)
Fixpoint slept (l : list event) : Z :=
  match l with
  | [] => 0
  | Sleep n :: rest => n + slept rest
  | _ :: rest => slept rest
  end.

(** URLs of the requests of a log. *)
Fixpoint urls (l : list event) : list string :=
  match l with
  | [] => []
  | Post u _ _ :: rest => u :: urls rest
  | Get u _ :: rest => u :: urls rest
  | _ :: rest => urls rest
  end.

(** The reports a listing response shows: [resp.json().get("value", [])]. *)
Definition reports_of (resp : response) : list Report.t :=
  default [] (value (json resp)).

(** What one polling attempt finds in the response it received. *)
Definition attempt_hit (w : world) (resp : response) (report_name : string)
    : option string :=
  if ok resp then Main.find_report w (reports_of resp) report_name else None.

(** A report matches when the lowered names coincide. *)
Definition matches (w : world) (report_name : string) (r : Report.t) : Prop :=
  str_lower w (Report.name r) = str_lower w report_name.

(** A listing attempt shows a match: the response is a success and one of
    its reports matches. *)
Definition has_match (w : world) (resp : response) (report_name : string) : Prop :=
  ok resp = true /\ Exists (matches w report_name) (reports_of resp).

(** [n] polling rounds as the service performs them. *)
Fixpoint rounds (url : string) (headers : gmap string string) (n : nat)
    : list event :=
  match n with
  | O => []
  | S m => Sleep 3 :: Get url headers :: rounds url headers m
  end.

(** The line the script prints after a round that found nothing. *)
Definition retry_line (attempt : nat) : string :=
  "  Attempt " +:+ pretty (attempt + 1)%nat +:+ ": report not found yet, retrying...".

(** Rounds of the script that found nothing, for the given attempt numbers. *)
Fixpoint missed_rounds (url : string) (headers : gmap string string)
    (attempts : list nat) : list event :=
  match attempts with
  | [] => []
  | a :: rest =>
      Sleep 3 :: Get url headers :: Print (retry_line a)
      :: missed_rounds url headers rest
  end.

(** The listing URL and the import URL, as literal text. *)
Definition reports_url (workspace_id : string) : string :=
  "https://api.powerbi.com/v1.0/myorg/groups/" +:+ workspace_id +:+ "/reports".

Definition upload_url (workspace_id report_name : string) : string :=
  "https://api.powerbi.com/v1.0/myorg/groups/" +:+ workspace_id
  +:+ "/imports?datasetDisplayName=" +:+ report_name
  +:+ "&nameConflict=CreateOrOverwrite".

Definition bearer (access_token : string) : gmap string string :=
  {[ "Authorization" := "Bearer " +:+ access_token ]}.

Definition pbix_part (report_name : string) (data : list Byte.byte) : file_part :=
  {| filename := report_name +:+ ".pbix";
     content := data;
     content_type := "application/vnd.ms-powerbi.pbix" |}.

(** Every variable the script requires is set to a non-empty value. *)
Definition env_complete (w : world) : Prop :=
  Forall (fun v => PyStr.truthy_opt (environ w !! v) = true)
         UploadReport.required_env.

(** The accepted status codes of an import. *)
Definition accepted (sc : Z) : Prop := sc ∈ [200; 201; 202].

(** The world in which every failed listing response is replaced by a
    successful one that lists no report. *)
Definition as_not_found (resp : response) : response :=
  if ok resp then resp
  else {| status_code := 200; text := text resp; json := {| value := Some [] |} |}.

Definition failures_as_not_found (w : world) : world :=
  {| str_lower := str_lower w;
     environ := environ w;
     token_result := token_result w;
     blob_result := blob_result w;
     import_response := import_response w;
     listing_response := fun k => as_not_found (listing_response w k) |}.

(** The requests of a run, as the programs send them. *)
Definition token_request (w : world) : event :=
  AcquireToken (environ w !! "CLIENT_ID")
    ("https://login.microsoftonline.com/" +:+ PyStr.fmt (environ w !! "TENANT_ID"))
    (environ w !! "CLIENT_SECRET")
    ["https://analysis.windows.net/powerbi/api/.default"].

Definition blob_request (w : world) : event :=
  DownloadBlob (environ w !! "AZURE_STORAGE_CONNECTION_STRING")
    (environ w !! "BLOB_CONTAINER") (environ w !! "EMPTY_PBIX_NAME").

Definition import_request (access_token workspace_id report_name : string)
    (data : list Byte.byte) : event :=
  Post (upload_url workspace_id report_name) (bearer access_token)
       {[ "file" := pbix_part report_name data ]}.

Definition listing_request (access_token workspace_id : string) : event :=
  Get (reports_url workspace_id) (bearer access_token).

(** The lines the script prints on its way to the listing loop. *)
Definition acquired_line : string := "✓ Access token acquired.".

Definition downloaded_line (w : world) (data : list Byte.byte) : string :=
  "✓ Downloaded '" +:+ PyStr.fmt (environ w !! "EMPTY_PBIX_NAME")
  +:+ "' from blob (" +:+ PyStr.fmt_thousands (length data) +:+ " bytes).".

Definition uploading_line (workspace_id report_name : string) : string :=
  "↑ Uploading report '" +:+ report_name +:+ "' to workspace "
  +:+ workspace_id +:+ " ...".

Definition rejected_line (resp : response) : string :=
  "ERROR: Upload failed (" +:+ pretty (status_code resp) +:+ "): " +:+ text resp.

Definition accepted_line (resp : response) : string :=
  "✓ Upload accepted (HTTP " +:+ pretty (status_code resp)
  +:+ "). Waiting for Power BI to process...".

Definition token_error_line (w : world) : string :=
  "ERROR: Failed to acquire token: "
  +:+ PyStr.fmt (token_result w !! "error_description").

(** What the script has logged when the import request has been sent. *)
Definition script_upload_log (w : world) (access_token workspace_id report_name : string)
    (data : list Byte.byte) : list event :=
  [token_request w; Print acquired_line;
   blob_request w; Print (downloaded_line w data);
   Print (uploading_line workspace_id report_name);
   import_request access_token workspace_id report_name data].

(** The closing lines of the script. *)
Definition unconfirmed_lines (workspace_id : string) : list event :=
  [Print (String "010" "⚠️  Upload succeeded but report ID could not be confirmed (may still be processing).");
   Print ("   Check workspace " +:+ workspace_id +:+ " in Power BI portal.")].

Definition success_lines (workspace_id report_name report_id : string) : list event :=
  [Print (String "010" "✅ Success!");
   Print ("   Report Name : " +:+ report_name);
   Print ("   Report ID   : " +:+ report_id);
   Print ("   Workspace ID: " +:+ workspace_id)].

(** In a piece of log, every listing request directly follows a
    three-second sleep. *)
Definition sleep_before_each_get (tr : list event) : Prop :=
  forall before url headers after,
    tr = before ++ Get url headers :: after ->
    exists before', before = before' ++ [Sleep 3].

(** ** The classification of upload responses, as the specification words it *)

Module Spec.

(** The classification of an upload response, as the specification
    words it. *)
Inductive upload_class := Accepted | Rejected.

Definition classify (sc : Z) : upload_class :=
  if (sc =? 200) || (sc =? 201) || (sc =? 202) then Accepted else Rejected.

End Spec.

(** ** Sample worlds *)

Module Sample.

Definition env : gmap string string :=
  list_to_map
    [("TENANT_ID", "tenant-1"); ("CLIENT_ID", "client-1"); ("CLIENT_SECRET", "s3cret");
     ("AZURE_STORAGE_CONNECTION_STRING", "UseDevelopmentStorage=true");
     ("BLOB_CONTAINER", "templates"); ("EMPTY_PBIX_NAME", "empty.pbix")].

Definition reply (sc : Z) (body : string) (reports : option (list Report.t)) : response :=
  {| status_code := sc; text := body; json := {| value := reports |} |}.

Definition data : list Byte.byte := [Byte.x50; Byte.x4b; Byte.x03; Byte.x04].

(** How [str.lower] acts on the text of the samples, which is ASCII:
    the letters A-Z become a-z, every other character stays. *)
Definition ascii_lower_char (c : ascii) : ascii :=
  let n := N_of_ascii c in
  if ((65 <=? n) && (n <=? 90))%N then ascii_of_N (n + 32) else c.

Fixpoint ascii_lower (s : string) : string :=
  match s with
  | EmptyString => EmptyString
  | String c rest => String (ascii_lower_char c) (ascii_lower rest)
  end.

Definition sales : list Report.t :=
  [ {| Report.name := "Budget"; Report.id := "id-0" |};
    {| Report.name := "Sales"; Report.id := "id-1" |};
    {| Report.name := "sales"; Report.id := "id-2" |} ].

(** Scenario A: the report is listed on the first poll. *)
Definition visible_at_once : world :=
  {| str_lower := ascii_lower;
     environ := env;
     token_result := {[ "access_token" := "tok" ]};
     blob_result := inr data;
     import_response := reply 202 "" None;
     listing_response := fun _ =>
       reply 200 "" (Some [ {| Report.name := "report-x"; Report.id := "r-1" |} ]) |}.

(** Scenario B: the upload is accepted and the report never shows up. *)
Definition never_visible : world :=
  {| str_lower := ascii_lower;
     environ := env;
     token_result := {[ "access_token" := "tok" ]};
     blob_result := inr data;
     import_response := reply 202 "" None;
     listing_response := fun _ => reply 200 "" (Some []) |}.

(** Scenario C: the identity provider answers with an error description. *)
Definition bad_secret : world :=
  {| str_lower := ascii_lower;
     environ := env;
     token_result := {[ "error_description" := "AADSTS7000215: Invalid client secret" ]};
     blob_result := inr data;
     import_response := reply 202 "" None;
     listing_response := fun _ => reply 200 "" (Some []) |}.

(** Scenario D: the platform rejects the import. *)
Definition invalid_dataset : world :=
  {| str_lower := ascii_lower;
     environ := env;
     token_result := {[ "access_token" := "tok" ]};
     blob_result := inr data;
     import_response := reply 400 "Invalid dataset" None;
     listing_response := fun _ => reply 200 "" (Some []) |}.

(** The blob is missing from the store. *)
Definition blob_missing : world :=
  {| str_lower := ascii_lower;
     environ := env;
     token_result := {[ "access_token" := "tok" ]};
     blob_result := inl "BlobNotFound";
     import_response := reply 202 "" None;
     listing_response := fun _ => reply 200 "" (Some []) |}.

(** Two failed listings, then a listing that shows the report. *)
Definition visible_third : world :=
  {| str_lower := ascii_lower;
     environ := env;
     token_result := {[ "access_token" := "tok" ]};
     blob_result := inr data;
     import_response := reply 200 "" None;
     listing_response := fun k =>
       if (k <? 2)%nat then reply 503 "busy" None
       else reply 200 "" (Some sales) |}.

Definition body : Main.UploadRequest.t :=
  {| Main.UploadRequest.workspace_id := "W1"; Main.UploadRequest.report_name := "Report-X" |}.

Definition args : UploadReport.Args.t :=
  {| UploadReport.Args.workspace_id := "W1"; UploadReport.Args.report_name := "Report-X" |}.

End Sample.

(** ** Further vocabulary: whole runs *)

Definition is_token_request (e : event) : bool :=
  match e with AcquireToken _ _ _ _ => true | _ => false end.

(** The headers of the requests sent to the platform, in order. *)
Fixpoint platform_headers (l : list event) : list (gmap string string) :=
  match l with
  | [] => []
  | Post _ h _ :: rest => h :: platform_headers rest
  | Get _ h :: rest => h :: platform_headers rest
  | _ :: rest => platform_headers rest
  end.

(** The lines printed, in order. *)
Fixpoint prints (l : list event) : list string :=
  match l with
  | [] => []
  | Print line :: rest => line :: prints rest
  | _ :: rest => prints rest
  end.

(** The script's list [missing]: the required variables that are unset
    or set to the empty string, in the order of [required_env]. *)
Definition missing_env (w : world) : list string :=
  List.filter (fun v => negb (PyStr.truthy_opt (environ w !! v)))
              UploadReport.required_env.

(** The same world with another answer of the blob store. *)
Definition with_blob (w : world) (b : string + list Byte.byte) : world :=
  {| str_lower := str_lower w;
     environ := environ w;
     token_result := token_result w;
     blob_result := b;
     import_response := import_response w;
     listing_response := listing_response w |}.

Module MoreSamples.

(** [CLIENT_SECRET] is set to the empty string, [BLOB_CONTAINER] is unset. *)
Definition incomplete_env : world :=
  {| str_lower := Sample.ascii_lower;
     environ := <[ "CLIENT_SECRET" := "" ]> (delete "BLOB_CONTAINER" Sample.env);
     token_result := {[ "access_token" := "tok" ]};
     blob_result := inr Sample.data;
     import_response := Sample.reply 202 "" None;
     listing_response := fun _ => Sample.reply 200 "" (Some []) |}.

(** The listing shows the report, with an empty id. *)
Definition empty_id : world :=
  {| str_lower := Sample.ascii_lower;
     environ := Sample.env;
     token_result := {[ "access_token" := "tok" ]};
     blob_result := inr Sample.data;
     import_response := Sample.reply 201 "" None;
     listing_response := fun _ =>
       Sample.reply 200 "" (Some [ {| Report.name := "REPORT-X"; Report.id := "" |} ]) |}.

End MoreSamples.

(** ** Proof steps shared by the stage lemmas *)

Ltac run_unfold :=
  unfold mbind, M_bind, try_except, print, emit, raise, mret, M_ret;
  cbn [gets log is_Exception].

Ltac norm_log := repeat rewrite <- app_assoc; cbn [app].

(** ** The polling loop *)

Section Polling.

Variable w : world.
Variables (url : string) (headers : gmap string string) (report_name : string).

Local Open Scope nat_scope.

Let hit (k : nat) : option string :=
  attempt_hit w (listing_response w k) report_name.

Lemma app_two (l : list event) (a b : event) :
  (l ++ [a]) ++ [b] = l ++ [a; b].
Proof. by rewrite <- app_assoc. Qed.

Lemma main_poll_nil s :
  Main.poll w [] url headers report_name s = (inr None, s).
Proof. reflexivity. Qed.

Lemma main_poll_cons a rest s :
  Main.poll w (a :: rest) url headers report_name s =
  let s' := {| gets := S (gets s); log := log s ++ [Sleep 3; Get url headers] |} in
  match hit (gets s) with
  | Some report_id => (inr (Some report_id), s')
  | None => Main.poll w rest url headers report_name s'
  end.
Proof.
  cbn [Main.poll]. unfold mbind, M_bind, sleep, emit, requests_get, mret, M_ret.
  cbn [gets log]. rewrite app_two.
  unfold hit, attempt_hit, reports_of.
  by destruct (if ok _ then _ else _).
Qed.

Lemma state_eta s : {| gets := gets s + 0; log := log s ++ [] |} = s.
Proof. destruct s; cbn. by rewrite Nat.add_0_r, app_nil_r. Qed.

Lemma rounds_snoc_state s n :
  {| gets := S (gets s) + n;
     log := (log s ++ [Sleep 3; Get url headers]) ++ rounds url headers n |}
  = {| gets := gets s + S n; log := log s ++ rounds url headers (S n) |}.
Proof. rewrite <- app_assoc. cbn. f_equal. lia. Qed.

(** No attempt finds the report: the service performs every round. *)
Lemma main_poll_miss attempts : forall s,
  (forall j, j < length attempts -> hit (gets s + j) = None) ->
  Main.poll w attempts url headers report_name s =
  (inr None, {| gets := gets s + length attempts;
                log := log s ++ rounds url headers (length attempts) |}).
Proof.
  induction attempts as [|a rest IH]; intros s Hmiss.
  - cbn [length rounds]. by rewrite main_poll_nil, state_eta.
  - rewrite main_poll_cons. cbn zeta.
    generalize (Hmiss 0 ltac:(cbn; lia)). rewrite Nat.add_0_r. intros ->.
    rewrite IH.
    + cbn [gets log length]. by rewrite rounds_snoc_state.
    + intros j Hj. cbn [gets].
      replace (S (gets s) + j) with (gets s + S j) by lia.
      apply Hmiss. cbn. lia.
Qed.

(** Attempt [k] is the first to find the report: the service stops there. *)
Lemma main_poll_hit attempts : forall s k report_id,
  k < length attempts ->
  (forall j, j < k -> hit (gets s + j) = None) ->
  hit (gets s + k) = Some report_id ->
  Main.poll w attempts url headers report_name s =
  (inr (Some report_id),
   {| gets := gets s + S k; log := log s ++ rounds url headers (S k) |}).
Proof.
  induction attempts as [|a rest IH]; intros s k report_id Hk Hmiss Hhit.
  - cbn in Hk. lia.
  - rewrite main_poll_cons. cbn zeta. destruct k as [|k].
    + rewrite Nat.add_0_r in Hhit. rewrite Hhit. do 2 f_equal. lia.
    + generalize (Hmiss 0 ltac:(lia)). rewrite Nat.add_0_r. intros ->.
      rewrite (IH _ k report_id).
      * cbn [gets log]. by rewrite rounds_snoc_state.
      * cbn in Hk. lia.
      * intros j Hj. cbn [gets].
        replace (S (gets s) + j) with (gets s + S j) by lia.
        apply Hmiss. lia.
      * cbn [gets]. by replace (S (gets s) + k) with (gets s + S k) by lia.
Qed.

(** Among the first [n] attempts, either none finds the report or there
    is a first one that does. *)
Lemma first_hit_cases (base n : nat) :
  (forall j, j < n -> hit (base + j) = None)
  \/ (exists k report_id, k < n /\ hit (base + k) = Some report_id
                          /\ forall j, j < k -> hit (base + j) = None).
Proof.
  induction n as [|n [IH | (k & report_id & Hk & Hhit & Hmiss)]].
  - left. intros j Hj. lia.
  - destruct (hit (base + n)) as [report_id|] eqn:Hn.
    + right. exists n, report_id. auto.
    + left. intros j Hj. destruct (decide (j = n)) as [->|]; [done|].
      apply IH. lia.
  - right. exists k, report_id. auto with lia.
Qed.

(** The two programs search a listing in the same way. *)
Lemma find_report_same reports name :
  UploadReport.find_report w reports name = Main.find_report w reports name.
Proof.
  induction reports as [|r rest IH]; [done|].
  cbn. by rewrite IH.
Qed.

Lemma script_poll_cons a rest s :
  UploadReport.poll w (a :: rest) url headers report_name s =
  match hit (gets s) with
  | Some report_id =>
      (inr (Some report_id),
       {| gets := S (gets s); log := log s ++ [Sleep 3; Get url headers] |})
  | None =>
      UploadReport.poll w rest url headers report_name
        {| gets := S (gets s);
           log := log s ++ [Sleep 3; Get url headers; Print (retry_line a)] |}
  end.
Proof.
  cbn [UploadReport.poll].
  unfold mbind, M_bind, sleep, print, emit, requests_get, mret, M_ret.
  cbn [gets log]. rewrite app_two, find_report_same.
  unfold hit, attempt_hit, reports_of.
  destruct (if ok _ then _ else _); [done|].
  cbn [gets log]. by rewrite <- app_assoc.
Qed.

Lemma missed_snoc_state s a l tail :
  {| gets := S (gets s) + length l;
     log := (log s ++ [Sleep 3; Get url headers; Print (retry_line a)])
            ++ missed_rounds url headers l ++ tail |}
  = {| gets := gets s + S (length l);
       log := log s ++ missed_rounds url headers (a :: l) ++ tail |}.
Proof. rewrite <- app_assoc. cbn. f_equal. lia. Qed.

(** No attempt finds the report: the script performs every round and
    prints its retry line after each. *)
Lemma script_poll_miss attempts : forall s,
  (forall j, j < length attempts -> hit (gets s + j) = None) ->
  UploadReport.poll w attempts url headers report_name s =
  (inr None, {| gets := gets s + length attempts;
                log := log s ++ missed_rounds url headers attempts |}).
Proof.
  induction attempts as [|a rest IH]; intros s Hmiss.
  - cbn. unfold mret, M_ret. by rewrite state_eta.
  - rewrite script_poll_cons.
    generalize (Hmiss 0 ltac:(cbn; lia)). rewrite Nat.add_0_r. intros ->.
    rewrite IH.
    + cbn [gets log length].
      generalize (missed_snoc_state s a rest []).
      rewrite !app_nil_r. by intros ->.
    + intros j Hj. cbn [gets].
      replace (S (gets s) + j) with (gets s + S j) by lia.
      apply Hmiss. cbn. lia.
Qed.

(** Attempt [k] is the first to find the report: the script stops there,
    without a retry line for that round. *)
Lemma script_poll_hit attempts : forall s k report_id,
  k < length attempts ->
  (forall j, j < k -> hit (gets s + j) = None) ->
  hit (gets s + k) = Some report_id ->
  UploadReport.poll w attempts url headers report_name s =
  (inr (Some report_id),
   {| gets := gets s + S k;
      log := log s ++ missed_rounds url headers (take k attempts)
                   ++ [Sleep 3; Get url headers] |}).
Proof.
  induction attempts as [|a rest IH]; intros s k report_id Hk Hmiss Hhit.
  - cbn in Hk. lia.
  - rewrite script_poll_cons. destruct k as [|k].
    + rewrite Nat.add_0_r in Hhit. rewrite Hhit. do 2 f_equal. lia.
    + generalize (Hmiss 0 ltac:(lia)). rewrite Nat.add_0_r. intros ->.
      cbn in Hk.
      rewrite (IH _ k report_id).
      * cbn [gets log take missed_rounds].
        do 2 f_equal; [lia | by rewrite <- app_assoc].
      * lia.
      * intros j Hj. cbn [gets].
        replace (S (gets s) + j) with (gets s + S j) by lia.
        apply Hmiss. lia.
      * cbn [gets]. by replace (S (gets s) + k) with (gets s + S k) by lia.
Qed.

Lemma without_prints_missed attempts :
  without_prints (missed_rounds url headers attempts)
  = rounds url headers (length attempts).
Proof.
  induction attempts as [|a rest IH]; [done|].
  cbn. by rewrite <- IH.
Qed.

Lemma rounds_snoc n :
  rounds url headers n ++ [Sleep 3; Get url headers] = rounds url headers (S n).
Proof.
  induction n as [|n IH]; [done|].
  change (rounds url headers (S n))
    with (Sleep 3 :: Get url headers :: rounds url headers n).
  cbn [app]. by rewrite IH.
Qed.

Lemma without_prints_app l1 l2 :
  without_prints (l1 ++ l2) = without_prints l1 ++ without_prints l2.
Proof. apply List.filter_app. Qed.

End Polling.

(** ** Searching one listing *)

Section Matching.

Variable w : world.
Variable report_name : string.

Lemma matches_eqb (r : Report.t) :
  String.eqb (str_lower w (Report.name r)) (str_lower w report_name) = true
  <-> matches w report_name r.
Proof. apply String.eqb_eq. Qed.

Lemma find_report_cons_hit r rest :
  matches w report_name r ->
  Main.find_report w (r :: rest) report_name = Some (Report.id r).
Proof. intros Hm. cbn. apply matches_eqb in Hm. by rewrite Hm. Qed.

Lemma find_report_cons_miss r rest :
  ~ matches w report_name r ->
  Main.find_report w (r :: rest) report_name = Main.find_report w rest report_name.
Proof.
  intros Hm. cbn.
  destruct (String.eqb _ _) eqn:E; [|done].
  by apply matches_eqb in E.
Qed.

Lemma matches_dec (r : Report.t) : {matches w report_name r} + {~ matches w report_name r}.
Proof. unfold matches. apply String.string_dec. Qed.

(** The search returns [None] exactly when no report of the listing matches. *)
Lemma find_report_None reports :
  Main.find_report w reports report_name = None
  <-> Forall (fun r => ~ matches w report_name r) reports.
Proof.
  induction reports as [|r rest IH].
  - split; [constructor | done].
  - destruct (matches_dec r) as [Hm|Hm].
    + rewrite find_report_cons_hit by done. split; [done|].
      intros HF. apply Forall_cons_1 in HF. tauto.
    + rewrite find_report_cons_miss, IH by done. split.
      * by constructor.
      * intros HF. by apply Forall_cons_1 in HF as [_ ?].
Qed.

(** The search returns the id of the first matching report, in listing order. *)
Lemma find_report_Some reports report_id :
  Main.find_report w reports report_name = Some report_id
  <-> exists before r after,
        reports = before ++ r :: after
        /\ Forall (fun r' => ~ matches w report_name r') before
        /\ matches w report_name r
        /\ Report.id r = report_id.
Proof.
  induction reports as [|r rest IH].
  - split; [done|]. intros (before & r & after & E & _).
    by destruct before.
  - destruct (matches_dec r) as [Hm|Hm].
    + rewrite find_report_cons_hit by done. split.
      * intros [= <-]. exists [], r, rest. repeat split; [constructor | done].
      * intros (before & r' & after & E & Hb & _ & Hid).
        destruct before as [|b before]; cbn in E.
        -- by injection E as -> _; subst.
        -- injection E as -> _. apply Forall_cons_1 in Hb. tauto.
    + rewrite find_report_cons_miss, IH by done. split.
      * intros (before & r' & after & -> & Hb & Hr & Hid).
        exists (r :: before), r', after. repeat split; [by constructor | done..].
      * intros (before & r' & after & E & Hb & Hr & Hid).
        destruct before as [|b before]; cbn in E.
        -- injection E as -> _. tauto.
        -- injection E as -> ->. apply Forall_cons_1 in Hb as [_ Hb].
           by exists before, r', after.
Qed.

(** An attempt finds a report exactly when its listing shows a match. *)
Lemma attempt_hit_has_match resp :
  is_Some (attempt_hit w resp report_name) <-> has_match w resp report_name.
Proof.
  unfold attempt_hit, has_match. destruct (ok resp).
  - split.
    + intros [i Hi]. split; [done|].
      apply find_report_Some in Hi as (before & r & after & -> & _ & Hr & _).
      apply Exists_app. right. by constructor.
    + intros [_ HE].
      destruct (Main.find_report _ _ _) eqn:E; [done|].
      apply find_report_None in E.
      apply Exists_exists in HE as (r & Hin & Hr).
      rewrite Forall_forall in E. by destruct (E r Hin).
  - split; [by intros [? ?] | by intros [? _]].
Qed.

Lemma attempt_hit_None resp :
  attempt_hit w resp report_name = None <-> ~ has_match w resp report_name.
Proof.
  rewrite <- attempt_hit_has_match.
  destruct (attempt_hit _ _); split; try done.
  intros H. by destruct H.
Qed.

(** A failed response is searched like a successful empty listing. *)
Lemma find_report_failures_as_not_found reports :
  Main.find_report (failures_as_not_found w) reports report_name
  = Main.find_report w reports report_name.
Proof. induction reports as [|r rest IH]; [done|]. cbn. by rewrite IH. Qed.

Lemma attempt_hit_as_not_found resp :
  attempt_hit (failures_as_not_found w) (as_not_found resp) report_name
  = attempt_hit w resp report_name.
Proof.
  unfold as_not_found, attempt_hit. rewrite find_report_failures_as_not_found.
  destruct (ok resp) eqn:E; [by rewrite E | done].
Qed.

End Matching.

(** ** The confirm operation *)

Section Confirm.

Variable w : world.
Variables (headers : gmap string string) (workspace_id report_name : string).

Local Open Scope nat_scope.

Lemma main_fetch_unfold :
  Main.fetch_report_id w headers workspace_id report_name
  = Main.poll w (seq 0 8) (reports_url workspace_id) headers report_name.
Proof. reflexivity. Qed.

Lemma script_fetch_unfold :
  UploadReport.fetch_report_id w headers workspace_id report_name
  = UploadReport.poll w (seq 0 8) (reports_url workspace_id) headers report_name.
Proof. reflexivity. Qed.

(** The two ways a confirmation can go, for both programs at once. *)
Lemma confirm_cases s :
  ((forall j, j < 8 ->
      attempt_hit w (listing_response w (gets s + j)) report_name = None)
   /\ Main.fetch_report_id w headers workspace_id report_name s
      = (inr None,
         {| gets := gets s + 8;
            log := log s ++ rounds (reports_url workspace_id) headers 8 |})
   /\ UploadReport.fetch_report_id w headers workspace_id report_name s
      = (inr None,
         {| gets := gets s + 8;
            log := log s ++ missed_rounds (reports_url workspace_id) headers (seq 0 8) |}))
  \/ (exists k report_id,
        k < 8
        /\ attempt_hit w (listing_response w (gets s + k)) report_name = Some report_id
        /\ (forall j, j < k ->
              attempt_hit w (listing_response w (gets s + j)) report_name = None)
        /\ Main.fetch_report_id w headers workspace_id report_name s
           = (inr (Some report_id),
              {| gets := gets s + S k;
                 log := log s ++ rounds (reports_url workspace_id) headers (S k) |})
        /\ UploadReport.fetch_report_id w headers workspace_id report_name s
           = (inr (Some report_id),
              {| gets := gets s + S k;
                 log := log s ++ missed_rounds (reports_url workspace_id) headers (seq 0 k)
                              ++ [Sleep 3; Get (reports_url workspace_id) headers] |})).
Proof.
  rewrite main_fetch_unfold, script_fetch_unfold.
  destruct (first_hit_cases w report_name (gets s) 8)
    as [Hmiss | (k & report_id & Hk & Hhit & Hmiss)].
  - left. split; [done|]. split.
    + by rewrite main_poll_miss.
    + by rewrite script_poll_miss.
  - right. exists k, report_id. repeat split; try done.
    + by rewrite (main_poll_hit _ _ _ _ _ _ k report_id).
    + rewrite (script_poll_hit _ _ _ _ _ _ k report_id) by done.
      rewrite take_seq, Nat.min_l by lia. done.
Qed.

(** Replacing failed listing responses by empty listings changes nothing. *)
Lemma main_poll_failures_as_not_found url attempts : forall s,
  Main.poll (failures_as_not_found w) attempts url headers report_name s
  = Main.poll w attempts url headers report_name s.
Proof.
  induction attempts as [|a rest IH]; intros s; [done|].
  rewrite !main_poll_cons. cbn zeta. cbn [listing_response failures_as_not_found].
  rewrite attempt_hit_as_not_found, IH. done.
Qed.

Lemma script_poll_failures_as_not_found url attempts : forall s,
  UploadReport.poll (failures_as_not_found w) attempts url headers report_name s
  = UploadReport.poll w attempts url headers report_name s.
Proof.
  induction attempts as [|a rest IH]; intros s; [done|].
  rewrite !script_poll_cons. cbn [listing_response failures_as_not_found].
  rewrite attempt_hit_as_not_found, IH. done.
Qed.

End Confirm.

(** ** The service, stage by stage *)

Section Service.

Variable w : world.
Variable body : Main.UploadRequest.t.

Local Abbreviation workspace_id := (Main.UploadRequest.workspace_id body).
Local Abbreviation report_name := (Main.UploadRequest.report_name body).

Lemma service_token_missing s :
  token_result w !! "access_token" = None ->
  Main.upload_report w body s
  = (inl (HTTPException 500
            ("Token error: " +:+ PyStr.fmt (token_result w !! "error_description"))),
     {| gets := gets s; log := log s ++ [token_request w] |}).
Proof.
  intros Htok.
  unfold Main.upload_report, Main.get_access_token, acquire_token_for_client.
  run_unfold. by rewrite Htok.
Qed.

Lemma service_download_wraps s msg :
  blob_result w = inl msg ->
  Main.download_empty_pbix w s
  = (inl (HTTPException 500 ("Blob download failed: " +:+ msg)),
     {| gets := gets s; log := log s ++ [blob_request w] |}).
Proof.
  intros Hblob. unfold Main.download_empty_pbix, download_blob_readall.
  run_unfold. by rewrite Hblob.
Qed.

Lemma service_download_ok s data :
  blob_result w = inr data ->
  Main.download_empty_pbix w s
  = (inr data, {| gets := gets s; log := log s ++ [blob_request w] |}).
Proof.
  intros Hblob. unfold Main.download_empty_pbix, download_blob_readall.
  run_unfold. by rewrite Hblob.
Qed.

Lemma service_blob_failed s access_token msg :
  token_result w !! "access_token" = Some access_token ->
  blob_result w = inl msg ->
  Main.upload_report w body s
  = (inl (HTTPException 500 ("Blob download failed: " +:+ msg)),
     {| gets := gets s; log := log s ++ [token_request w; blob_request w] |}).
Proof.
  intros Htok Hblob.
  unfold Main.upload_report, Main.get_access_token, acquire_token_for_client.
  run_unfold. rewrite Htok.
  rewrite (service_download_wraps _ msg Hblob). cbn [gets log].
  by norm_log.
Qed.

Lemma service_rejected s access_token data :
  token_result w !! "access_token" = Some access_token ->
  blob_result w = inr data ->
  ~ accepted (status_code (import_response w)) ->
  Main.upload_report w body s
  = (inl (HTTPException (status_code (import_response w)) (text (import_response w))),
     {| gets := gets s;
        log := log s ++ [token_request w; blob_request w;
                         import_request access_token workspace_id report_name data] |}).
Proof.
  intros Htok Hblob Hsc.
  unfold Main.upload_report, Main.get_access_token, acquire_token_for_client.
  run_unfold. rewrite Htok.
  rewrite (service_download_ok _ data Hblob). cbn [gets log].
  unfold requests_post. run_unfold.
  rewrite bool_decide_eq_false_2 by done. cbn [negb].
  by norm_log.
Qed.

Lemma service_accepted s access_token data :
  token_result w !! "access_token" = Some access_token ->
  blob_result w = inr data ->
  accepted (status_code (import_response w)) ->
  Main.upload_report w body s
  = match Main.fetch_report_id w (bearer access_token) workspace_id report_name
            {| gets := gets s;
               log := log s ++ [token_request w; blob_request w;
                                import_request access_token workspace_id report_name data] |}
    with
    | (inl e, s') => (inl e, s')
    | (inr report_id, s') =>
        (inr {| Main.UploadResponse.message :=
                  if PyStr.truthy_opt report_id
                  then "Report uploaded successfully"
                  else "Upload accepted but report ID not yet confirmed";
                Main.UploadResponse.workspace_id := workspace_id;
                Main.UploadResponse.report_name := report_name;
                Main.UploadResponse.report_id := report_id |}, s')
    end.
Proof.
  intros Htok Hblob Hsc.
  unfold Main.upload_report, Main.get_access_token, acquire_token_for_client.
  run_unfold. rewrite Htok.
  rewrite (service_download_ok _ data Hblob). cbn [gets log].
  unfold requests_post. run_unfold.
  rewrite bool_decide_eq_true_2 by done. cbn [negb].
  by norm_log.
Qed.

End Service.

(** ** The script, stage by stage *)

Section Script.

Variable w : world.
Variable args : UploadReport.Args.t.

Local Abbreviation workspace_id := (UploadReport.Args.workspace_id args).
Local Abbreviation report_name := (UploadReport.Args.report_name args).

Lemma env_complete_no_missing :
  env_complete w ->
  List.filter (fun v => negb (PyStr.truthy_opt (environ w !! v)))
              UploadReport.required_env = [].
Proof.
  unfold env_complete. generalize UploadReport.required_env.
  induction l as [|v l IH]; intros HF; [done|].
  apply Forall_cons_1 in HF as [Hv HF]. cbn. rewrite Hv. cbn. by apply IH.
Qed.

Lemma script_token_missing_fn s :
  token_result w !! "access_token" = None ->
  UploadReport.get_access_token w s
  = (inl (SystemExit 1),
     {| gets := gets s;
        log := log s ++ [token_request w;
                         Print ("ERROR: Failed to acquire token: "
                                +:+ PyStr.fmt (token_result w !! "error_description"))] |}).
Proof.
  intros Htok. unfold UploadReport.get_access_token, acquire_token_for_client.
  run_unfold. rewrite Htok. run_unfold. by norm_log.
Qed.

Lemma script_token_ok_fn s access_token :
  token_result w !! "access_token" = Some access_token ->
  UploadReport.get_access_token w s
  = (inr access_token,
     {| gets := gets s;
        log := log s ++ [token_request w; Print "✓ Access token acquired."] |}).
Proof.
  intros Htok. unfold UploadReport.get_access_token, acquire_token_for_client.
  run_unfold. rewrite Htok. run_unfold. by norm_log.
Qed.

(** The script's download has no handler: the store's exception leaves
    the function as it is. *)
Lemma script_download_raises s msg :
  blob_result w = inl msg ->
  UploadReport.download_empty_pbix w s
  = (inl (StoreException msg),
     {| gets := gets s; log := log s ++ [blob_request w] |}).
Proof.
  intros Hblob. unfold UploadReport.download_empty_pbix, download_blob_readall.
  run_unfold. by rewrite Hblob.
Qed.

Lemma script_download_ok s data :
  blob_result w = inr data ->
  UploadReport.download_empty_pbix w s
  = (inr data,
     {| gets := gets s;
        log := log s ++ [blob_request w;
                         Print ("✓ Downloaded '" +:+ PyStr.fmt (environ w !! "EMPTY_PBIX_NAME")
                                +:+ "' from blob (" +:+ PyStr.fmt_thousands (length data)
                                +:+ " bytes).")] |}).
Proof.
  intros Hblob. unfold UploadReport.download_empty_pbix, download_blob_readall.
  run_unfold. rewrite Hblob. run_unfold. by norm_log.
Qed.

Lemma script_upload_rejected s access_token ws name data :
  ~ accepted (status_code (import_response w)) ->
  UploadReport.upload_to_workspace w access_token ws name data s
  = (inl (SystemExit 1),
     {| gets := gets s;
        log := log s ++ [Print ("↑ Uploading report '" +:+ name +:+ "' to workspace "
                                +:+ ws +:+ " ...");
                         import_request access_token ws name data;
                         Print ("ERROR: Upload failed ("
                                +:+ pretty (status_code (import_response w)) +:+ "): "
                                +:+ text (import_response w))] |}).
Proof.
  intros Hsc. unfold UploadReport.upload_to_workspace, requests_post.
  run_unfold. rewrite bool_decide_eq_false_2 by done. cbn [negb].
  run_unfold. by norm_log.
Qed.

Lemma script_upload_accepted s access_token ws name data :
  accepted (status_code (import_response w)) ->
  UploadReport.upload_to_workspace w access_token ws name data s
  = (inr (bearer access_token),
     {| gets := gets s;
        log := log s ++ [Print ("↑ Uploading report '" +:+ name +:+ "' to workspace "
                                +:+ ws +:+ " ...");
                         import_request access_token ws name data;
                         Print ("✓ Upload accepted (HTTP "
                                +:+ pretty (status_code (import_response w))
                                +:+ "). Waiting for Power BI to process...")] |}).
Proof.
  intros Hsc. unfold UploadReport.upload_to_workspace, requests_post.
  run_unfold. rewrite bool_decide_eq_true_2 by done. cbn [negb].
  run_unfold. by norm_log.
Qed.

Lemma script_main_unfold s :
  env_complete w ->
  UploadReport.main w args s
  = (token ← UploadReport.get_access_token w;
     pbix_bytes ← UploadReport.download_empty_pbix w;
     headers ← UploadReport.upload_to_workspace w token workspace_id report_name pbix_bytes;
     report_id ← UploadReport.fetch_report_id w headers workspace_id report_name;
     if PyStr.truthy_opt report_id
     then
       print (String "010" "✅ Success!");;
       print ("   Report Name : " +:+ report_name);;
       print ("   Report ID   : " +:+ PyStr.fmt report_id);;
       print ("   Workspace ID: " +:+ workspace_id)
     else
       print (String "010" "⚠️  Upload succeeded but report ID could not be confirmed (may still be processing).");;
       print ("   Check workspace " +:+ workspace_id +:+ " in Power BI portal.")) s.
Proof.
  intros Henv. unfold UploadReport.main.
  by rewrite (env_complete_no_missing Henv).
Qed.

Lemma script_token_missing s :
  env_complete w ->
  token_result w !! "access_token" = None ->
  UploadReport.main w args s
  = (inl (SystemExit 1),
     {| gets := gets s;
        log := log s ++ [token_request w;
                         Print ("ERROR: Failed to acquire token: "
                                +:+ PyStr.fmt (token_result w !! "error_description"))] |}).
Proof.
  intros Henv Htok. rewrite script_main_unfold by done.
  unfold mbind at 1, M_bind at 1. by rewrite script_token_missing_fn.
Qed.

Lemma script_blob_failed s access_token msg :
  env_complete w ->
  token_result w !! "access_token" = Some access_token ->
  blob_result w = inl msg ->
  UploadReport.main w args s
  = (inl (StoreException msg),
     {| gets := gets s;
        log := log s ++ [token_request w; Print "✓ Access token acquired.";
                         blob_request w] |}).
Proof.
  intros Henv Htok Hblob. rewrite script_main_unfold by done.
  unfold mbind at 1, M_bind at 1. rewrite (script_token_ok_fn _ _ Htok).
  unfold mbind at 1, M_bind at 1. rewrite (script_download_raises _ _ Hblob).
  cbn [gets log]. by norm_log.
Qed.

Lemma script_rejected s access_token data :
  env_complete w ->
  token_result w !! "access_token" = Some access_token ->
  blob_result w = inr data ->
  ~ accepted (status_code (import_response w)) ->
  UploadReport.main w args s
  = (inl (SystemExit 1),
     {| gets := gets s;
        log := log s ++ script_upload_log w access_token workspace_id report_name data
                     ++ [Print (rejected_line (import_response w))] |}).
Proof.
  intros Henv Htok Hblob Hsc. rewrite script_main_unfold by done.
  unfold mbind at 1, M_bind at 1. rewrite (script_token_ok_fn _ _ Htok).
  unfold mbind at 1, M_bind at 1. rewrite (script_download_ok _ _ Hblob).
  unfold mbind at 1, M_bind at 1. rewrite script_upload_rejected by done.
  cbn [gets log]. by norm_log.
Qed.

Lemma script_accepted s access_token data :
  env_complete w ->
  token_result w !! "access_token" = Some access_token ->
  blob_result w = inr data ->
  accepted (status_code (import_response w)) ->
  UploadReport.main w args s
  = match UploadReport.fetch_report_id w (bearer access_token) workspace_id report_name
            {| gets := gets s;
               log := log s ++ script_upload_log w access_token workspace_id report_name data
                            ++ [Print (accepted_line (import_response w))] |}
    with
    | (inl e, s') => (inl e, s')
    | (inr report_id, s') =>
        (inr tt,
         {| gets := gets s';
            log := log s' ++
                   match report_id with
                   | Some i =>
                       if PyStr.truthy i
                       then success_lines workspace_id report_name i
                       else unconfirmed_lines workspace_id
                   | None => unconfirmed_lines workspace_id
                   end |})
    end.
Proof.
  intros Henv Htok Hblob Hsc. rewrite script_main_unfold by done.
  unfold mbind at 1, M_bind at 1. rewrite (script_token_ok_fn _ _ Htok).
  unfold mbind at 1, M_bind at 1. rewrite (script_download_ok _ _ Hblob).
  unfold mbind at 1, M_bind at 1. rewrite script_upload_accepted by done.
  cbn [gets log]. norm_log.
  unfold mbind at 1, M_bind at 1.
  unfold script_upload_log, acquired_line, downloaded_line, uploading_line,
    accepted_line, import_request, upload_url, bearer, pbix_part. cbn [app].
  match goal with |- context [UploadReport.fetch_report_id ?a ?b ?c ?d ?e] =>
    destruct (UploadReport.fetch_report_id a b c d e) as [[e'|[i|]] s'] end.
  - done.
  - cbn [PyStr.truthy_opt PyStr.fmt]. destruct (PyStr.truthy i).
    + run_unfold. by norm_log.
    + run_unfold. by norm_log.
  - cbn [PyStr.truthy_opt]. run_unfold. by norm_log.
Qed.

End Script.

(** ** Shapes of logs *)

Section Logs.

Variables (url : string) (headers : gmap string string).

Lemma sleep_before_each_get_nil : sleep_before_each_get [].
Proof. intros before u h after E. by destruct before. Qed.

Lemma sleep_before_each_get_app tr1 tr2 :
  sleep_before_each_get tr1 -> sleep_before_each_get tr2 ->
  sleep_before_each_get (tr1 ++ tr2).
Proof.
  intros H1 H2 before u h after E.
  apply app_eq_app in E as [l [[E1 E2] | [E1 E2]]].
  - destruct l as [|x l]; cbn in E2.
    + destruct (H2 [] u h after) as [b Hb]; [done|]. by destruct b.
    + injection E2 as <- _. by apply (H1 before u h l).
  - destruct (H2 l u h after E2) as [b ->].
    exists (tr1 ++ b). by rewrite E1, app_assoc.
Qed.

Lemma sleep_before_get_round :
  sleep_before_each_get [Sleep 3; Get url headers].
Proof.
  intros before u h after E.
  destruct before as [|a [|b [|c before]]]; simplify_eq/=.
  by exists [].
Qed.

Lemma sleep_before_get_missed_round line :
  sleep_before_each_get [Sleep 3; Get url headers; Print line].
Proof.
  intros before u h after E.
  destruct before as [|a [|b [|c [|d before]]]]; simplify_eq/=.
  by exists [].
Qed.

Lemma sleep_before_get_rounds n :
  sleep_before_each_get (rounds url headers n).
Proof.
  induction n as [|n IH]; [apply sleep_before_each_get_nil|].
  apply (sleep_before_each_get_app [Sleep 3; Get url headers]);
    [apply sleep_before_get_round | done].
Qed.

Lemma sleep_before_get_missed attempts :
  sleep_before_each_get (missed_rounds url headers attempts).
Proof.
  induction attempts as [|a rest IH]; [apply sleep_before_each_get_nil|].
  apply (sleep_before_each_get_app [Sleep 3; Get url headers; Print (retry_line a)]);
    [apply sleep_before_get_missed_round | done].
Qed.

Lemma slept_app tr1 tr2 : slept (tr1 ++ tr2) = slept tr1 + slept tr2.
Proof.
  induction tr1 as [|e tr1 IH]; [done|].
  destruct e; cbn; rewrite IH; lia.
Qed.

Lemma slept_rounds n : slept (rounds url headers n) = 3 * Z.of_nat n.
Proof. induction n as [|n IH]; [done|]. cbn [rounds slept]. lia. Qed.

Lemma slept_missed attempts :
  slept (missed_rounds url headers attempts) = 3 * Z.of_nat (length attempts).
Proof.
  induction attempts as [|a rest IH]; [done|].
  cbn [missed_rounds slept length]. lia.
Qed.

Lemma listing_calls_rounds n :
  listing_calls (rounds url headers n) = repeat (Get url headers) n.
Proof. induction n as [|n IH]; [done|]. cbn. by rewrite <- IH. Qed.

Lemma posts_rounds n : posts (rounds url headers n) = [].
Proof. induction n as [|n IH]; [done|]. cbn. by rewrite <- IH. Qed.

Lemma urls_rounds n : urls (rounds url headers n) = repeat url n.
Proof. induction n as [|n IH]; [done|]. cbn. by rewrite <- IH. Qed.

Lemma urls_app tr1 tr2 : urls (tr1 ++ tr2) = urls tr1 ++ urls tr2.
Proof.
  induction tr1 as [|e tr1 IH]; [done|].
  destruct e; cbn; by rewrite IH.
Qed.

Lemma urls_missed attempts :
  urls (missed_rounds url headers attempts) = repeat url (length attempts).
Proof. induction attempts as [|a rest IH]; [done|]. cbn. by rewrite <- IH. Qed.

Lemma posts_missed attempts : posts (missed_rounds url headers attempts) = [].
Proof. induction attempts as [|a rest IH]; [done|]. cbn. by rewrite <- IH. Qed.

End Logs.

(** ** The claims about the confirm operation *)

(** C3. Every execution of the confirm operation, in the service and in
    the script, sends between 1 and 8 listing requests; its log is a
    sequence of rounds "sleep 3, then list", so that two consecutive
    listing requests always have the 3-second sleep between them (the
    script's log is the same once its printed lines are left out); and
    when attempt [k] is the first whose listing shows a case-insensitive
    match, the operation returns that match after exactly [k + 1] listing
    requests. *)
Theorem C3_confirm_polls_at_most_eight_times
    (w : world) (headers : gmap string string)
    (workspace_id report_name : string) (s : state) :
  exists (n : nat) (result : option string) (script_events : list event),
    Main.fetch_report_id w headers workspace_id report_name s
    = (inr result,
       {| gets := gets s + n;
          log := log s ++ rounds (reports_url workspace_id) headers n |})
    /\ UploadReport.fetch_report_id w headers workspace_id report_name s
       = (inr result, {| gets := gets s + n; log := log s ++ script_events |})
    /\ without_prints script_events = rounds (reports_url workspace_id) headers n
    /\ (1 <= n <= 8)%nat
    /\ forall k : nat,
         (k < 8)%nat ->
         has_match w (listing_response w (gets s + k)) report_name ->
         (forall j : nat, (j < k)%nat ->
            ~ has_match w (listing_response w (gets s + j)) report_name) ->
         n = S k
         /\ result = attempt_hit w (listing_response w (gets s + k)) report_name
         /\ is_Some result.
Proof.
  destruct (confirm_cases w headers workspace_id report_name s)
    as [(Hmiss & Hservice & Hscript)
       | (k0 & report_id & Hk0 & Hhit & Hmiss & Hservice & Hscript)].
  - exists 8%nat, None, (missed_rounds (reports_url workspace_id) headers (seq 0 8)).
    split_and!; [done | done | | lia | lia | ].
    + by rewrite without_prints_missed.
    + intros k Hk Hmatch _. apply attempt_hit_has_match in Hmatch.
      rewrite Hmiss in Hmatch by done. by destruct Hmatch.
  - exists (S k0), (Some report_id),
      (missed_rounds (reports_url workspace_id) headers (seq 0 k0)
       ++ [Sleep 3; Get (reports_url workspace_id) headers]).
    assert (Hfirst : forall k : nat,
      (k < 8)%nat ->
      has_match w (listing_response w (gets s + k)) report_name ->
      (forall j : nat, (j < k)%nat ->
         ~ has_match w (listing_response w (gets s + j)) report_name) ->
      k = k0).
    { intros k Hk Hmatch Hbefore.
      destruct (Nat.lt_trichotomy k k0) as [Hlt | [-> | Hgt]]; [|done|].
      - apply attempt_hit_has_match in Hmatch.
        rewrite Hmiss in Hmatch by done. by destruct Hmatch.
      - destruct (Hbefore k0 Hgt). apply attempt_hit_has_match.
        by rewrite Hhit. }
    split_and!; [done | done | | lia | lia | ].
    + rewrite without_prints_app, without_prints_missed, length_seq.
      apply rounds_snoc.
    + intros k Hk Hmatch Hbefore. rewrite (Hfirst k) by done.
      by rewrite Hhit.
Qed.

(** C9. In every execution of the confirm operation the 3-second sleep
    comes before every listing request, the first one included: the log
    of the operation starts with the sleep, every listing request in it
    directly follows a sleep of 3, and the time slept is at least 3. *)
Theorem C9_sleep_precedes_every_listing_call
    (w : world) (headers : gmap string string)
    (workspace_id report_name : string) (s : state) :
  exists service_events script_events : list event,
    log (Main.fetch_report_id w headers workspace_id report_name s).2
    = log s ++ service_events
    /\ log (UploadReport.fetch_report_id w headers workspace_id report_name s).2
       = log s ++ script_events
    /\ head service_events = Some (Sleep 3)
    /\ head script_events = Some (Sleep 3)
    /\ sleep_before_each_get service_events
    /\ sleep_before_each_get script_events
    /\ listing_calls service_events <> []
    /\ listing_calls script_events <> []
    /\ 3 <= slept service_events
    /\ 3 <= slept script_events.
Proof.
  destruct (confirm_cases w headers workspace_id report_name s)
    as [(_ & Hservice & Hscript)
       | (k0 & report_id & Hk0 & _ & _ & Hservice & Hscript)];
    rewrite Hservice, Hscript; cbn [snd log].
  - exists (rounds (reports_url workspace_id) headers 8),
           (missed_rounds (reports_url workspace_id) headers (seq 0 8)).
    split_and!; try done.
    + apply sleep_before_get_rounds.
    + apply sleep_before_get_missed.
  - exists (rounds (reports_url workspace_id) headers (S k0)),
           (missed_rounds (reports_url workspace_id) headers (seq 0 k0)
            ++ [Sleep 3; Get (reports_url workspace_id) headers]).
    split_and!; try done.
    + by destruct k0.
    + apply sleep_before_get_rounds.
    + apply sleep_before_each_get_app;
        [apply sleep_before_get_missed | apply sleep_before_get_round].
    + unfold listing_calls. rewrite List.filter_app. cbn.
      by destruct (List.filter _ _).
    + rewrite slept_rounds. lia.
    + rewrite slept_app, slept_missed. cbn. lia.
Qed.

(** C4. A listing response that is not a success is treated exactly as a
    listing without the report: replacing every failed response by a
    successful empty listing changes neither the result nor the log of
    the confirm operation.  A failure at an attempt that is not the last
    and has no earlier match is followed by the next listing request.
    The operation never raises, and it returns [None] only after all 8
    listing requests. *)
Theorem C4_listing_failure_is_not_found_yet
    (w : world) (headers : gmap string string)
    (workspace_id report_name : string) (s : state) :
  Main.fetch_report_id (failures_as_not_found w) headers workspace_id report_name s
  = Main.fetch_report_id w headers workspace_id report_name s
  /\ UploadReport.fetch_report_id (failures_as_not_found w) headers workspace_id report_name s
     = UploadReport.fetch_report_id w headers workspace_id report_name s
  /\ (forall k : nat,
        (k < 7)%nat ->
        ok (listing_response w (gets s + k)) = false ->
        (forall j : nat, (j < k)%nat ->
           ~ has_match w (listing_response w (gets s + j)) report_name) ->
        (gets s + k + 2 <=
           gets (Main.fetch_report_id w headers workspace_id report_name s).2)%nat
        /\ (gets s + k + 2 <=
              gets (UploadReport.fetch_report_id w headers workspace_id report_name s).2)%nat)
  /\ (exists result s1 s2,
        Main.fetch_report_id w headers workspace_id report_name s = (inr result, s1)
        /\ UploadReport.fetch_report_id w headers workspace_id report_name s = (inr result, s2)
        /\ (result = None -> gets s1 = (gets s + 8)%nat /\ gets s2 = (gets s + 8)%nat)).
Proof.
  split_and!.
  - rewrite !main_fetch_unfold. apply main_poll_failures_as_not_found.
  - rewrite !script_fetch_unfold. apply script_poll_failures_as_not_found.
  - intros k Hk Hfail Hbefore.
    destruct (confirm_cases w headers workspace_id report_name s)
      as [(_ & -> & ->) | (k0 & report_id & Hk0 & Hhit & _ & -> & ->)];
      cbn [snd gets]; [lia|].
    assert (k < k0)%nat; [|lia].
    destruct (Nat.lt_trichotomy k k0) as [Hlt | [-> | Hgt]]; [done| |].
    + unfold attempt_hit in Hhit. by rewrite Hfail in Hhit.
    + destruct (Hbefore k0 Hgt). apply attempt_hit_has_match. by rewrite Hhit.
  - destruct (confirm_cases w headers workspace_id report_name s)
      as [(_ & -> & ->) | (k0 & report_id & Hk0 & Hhit & _ & -> & ->)].
    + eexists _, _, _. split_and!; done.
    + eexists _, _, _. split_and!; done.
Qed.

(** C5. When no attempt within the budget of 8 shows a matching report,
    the confirm operation returns [None] without raising.  A run whose
    upload was accepted then ends normally: the service returns a
    response with the "not yet confirmed" message and no report id, and
    the script ends with its "could not be confirmed" lines; neither ends
    with an exception, as a rejection would. *)
Theorem C5_accepted_but_unconfirmed
    (w : world) (workspace_id report_name access_token : string)
    (data : list Byte.byte) :
  token_result w !! "access_token" = Some access_token ->
  blob_result w = inr data ->
  accepted (status_code (import_response w)) ->
  (forall k : nat, (k < 8)%nat ->
     ~ has_match w (listing_response w k) report_name) ->
  (Main.fetch_report_id w (bearer access_token) workspace_id report_name start).1
  = inr None
  /\ (UploadReport.fetch_report_id w (bearer access_token) workspace_id report_name start).1
     = inr None
  /\ exec (Main.upload_report w
             {| Main.UploadRequest.workspace_id := workspace_id;
                Main.UploadRequest.report_name := report_name |})
     = (inr {| Main.UploadResponse.message :=
                 "Upload accepted but report ID not yet confirmed";
               Main.UploadResponse.workspace_id := workspace_id;
               Main.UploadResponse.report_name := report_name;
               Main.UploadResponse.report_id := None |},
        {| gets := 8;
           log := [token_request w; blob_request w;
                   import_request access_token workspace_id report_name data]
                  ++ rounds (reports_url workspace_id) (bearer access_token) 8 |})
  /\ (env_complete w ->
      exec (UploadReport.main w
              {| UploadReport.Args.workspace_id := workspace_id;
                 UploadReport.Args.report_name := report_name |})
      = (inr tt,
         {| gets := 8;
            log := script_upload_log w access_token workspace_id report_name data
                   ++ [Print (accepted_line (import_response w))]
                   ++ missed_rounds (reports_url workspace_id) (bearer access_token) (seq 0 8)
                   ++ unconfirmed_lines workspace_id |})).
Proof.
  intros Htok Hblob Hsc Hnone.
  assert (Hmiss : forall s, gets s = 0%nat -> forall j : nat, (j < 8)%nat ->
            attempt_hit w (listing_response w (gets s + j)) report_name = None).
  { intros s -> j Hj. by apply attempt_hit_None, Hnone. }
  split_and!.
  - rewrite main_fetch_unfold, main_poll_miss; [done | by apply Hmiss].
  - rewrite script_fetch_unfold, script_poll_miss; [done | by apply Hmiss].
  - unfold exec. rewrite (service_accepted _ _ _ access_token data) by done.
    cbn [Main.UploadRequest.workspace_id Main.UploadRequest.report_name].
    rewrite main_fetch_unfold, main_poll_miss by (by apply Hmiss).
    done.
  - intros Henv. unfold exec.
    rewrite (script_accepted _ _ _ access_token data) by done.
    cbn [UploadReport.Args.workspace_id UploadReport.Args.report_name].
    rewrite script_fetch_unfold, script_poll_miss by (by apply Hmiss).
    cbn [gets log length start app]. by rewrite <- !app_assoc.
Qed.

(** ** The first match of a listing *)

(** C6. The search of a listing compares names after [str.lower()], the
    case-insensitive exact comparison of the code: it picks a report
    exactly when the lowered name of the report equals the lowered
    requested name, and among several such reports it returns the id of
    the first in listing order; it finds nothing exactly when no report
    of the listing has such a name.  A report whose name is the
    requested name letter for letter is always among the matches.  This
    holds whatever function the interpreter's [str.lower] is.  The
    service and the script search in the same way, and a confirm
    operation whose first listing is a success showing such a report
    returns that first id. *)
Theorem C6_first_case_insensitive_match_wins
    (w : world) (reports : list Report.t) (report_name : string) :
  (forall report_id : string,
     Main.find_report w reports report_name = Some report_id
     <-> exists before r after,
           reports = before ++ r :: after
           /\ Forall (fun r' =>
                str_lower w (Report.name r') <> str_lower w report_name) before
           /\ str_lower w (Report.name r) = str_lower w report_name
           /\ Report.id r = report_id)
  /\ (Main.find_report w reports report_name = None
      <-> Forall (fun r =>
            str_lower w (Report.name r) <> str_lower w report_name) reports)
  /\ (forall r : Report.t,
        In r reports -> Report.name r = report_name ->
        is_Some (Main.find_report w reports report_name))
  /\ UploadReport.find_report w reports report_name
     = Main.find_report w reports report_name
  /\ (forall (headers : gmap string string) (workspace_id : string)
             (s : state) (report_id : string),
        ok (listing_response w (gets s)) = true ->
        reports_of (listing_response w (gets s)) = reports ->
        Main.find_report w reports report_name = Some report_id ->
        Main.fetch_report_id w headers workspace_id report_name s
        = (inr (Some report_id),
           {| gets := gets s + 1;
              log := log s ++ [Sleep 3; Get (reports_url workspace_id) headers] |})
        /\ UploadReport.fetch_report_id w headers workspace_id report_name s
           = (inr (Some report_id),
              {| gets := gets s + 1;
                 log := log s ++ [Sleep 3; Get (reports_url workspace_id) headers] |})).
Proof.
  split_and!.
  - intros report_id. apply find_report_Some.
  - apply find_report_None.
  - intros r Hin Hname.
    destruct (Main.find_report w reports report_name) eqn:E; [done|].
    apply find_report_None in E. rewrite Forall_forall in E.
    apply list_elem_of_In in Hin. destruct (E r Hin).
    unfold matches. by rewrite Hname.
  - apply find_report_same.
  - intros headers workspace_id s report_id Hok Hreports Hfind.
    assert (Hhit : attempt_hit w (listing_response w (gets s + 0)) report_name
                   = Some report_id).
    { rewrite Nat.add_0_r. unfold attempt_hit. by rewrite Hok, Hreports. }
    split.
    + rewrite main_fetch_unfold.
      rewrite (main_poll_hit _ _ _ _ _ _ 0%nat report_id); cbn; (done || lia).
    + rewrite script_fetch_unfold.
      rewrite (script_poll_hit _ _ _ _ _ _ 0%nat report_id); cbn; (done || lia).
Qed.

(** ** Whole runs *)

Section Runs.

Variable w : world.
Variables (workspace_id report_name access_token : string).
Variable data : list Byte.byte.

Hypothesis Htok : token_result w !! "access_token" = Some access_token.
Hypothesis Hblob : blob_result w = inr data.

Lemma accepted_dec (sc : Z) : {accepted sc} + {~ accepted sc}.
Proof. unfold accepted. apply (decide (sc ∈ [200; 201; 202])). Qed.

Lemma accepted_classify (sc : Z) :
  accepted sc <-> Spec.classify sc = Spec.Accepted.
Proof.
  unfold accepted, Spec.classify. rewrite !elem_of_cons, elem_of_nil.
  destruct (Z.eqb_spec sc 200), (Z.eqb_spec sc 201), (Z.eqb_spec sc 202);
    cbn; split; intros; try done; lia.
Qed.

(** After an accepted upload the service ends normally, having polled. *)
Lemma service_accepted_run :
  accepted (status_code (import_response w)) ->
  exists (n : nat) (response : Main.UploadResponse.t),
    (1 <= n <= 8)%nat
    /\ exec (Main.upload_report w
               {| Main.UploadRequest.workspace_id := workspace_id;
                  Main.UploadRequest.report_name := report_name |})
       = (inr response,
          {| gets := n;
             log := [token_request w; blob_request w;
                     import_request access_token workspace_id report_name data]
                    ++ rounds (reports_url workspace_id) (bearer access_token) n |}).
Proof.
  intros Hsc. unfold exec.
  rewrite (service_accepted _ _ _ access_token data) by done.
  cbn [Main.UploadRequest.workspace_id Main.UploadRequest.report_name].
  match goal with |- context [Main.fetch_report_id _ _ _ _ ?s] =>
    destruct (confirm_cases w (bearer access_token) workspace_id report_name s)
      as [(_ & -> & _) | (k & report_id & Hk & _ & _ & -> & _)] end.
  - exists 8%nat. eexists. split; [lia | done].
  - exists (S k). eexists. split; [lia | done].
Qed.

(** After an accepted upload the script ends normally, having polled. *)
Lemma script_accepted_run :
  env_complete w ->
  accepted (status_code (import_response w)) ->
  exists (n : nat) (tail : list event),
    (1 <= n <= 8)%nat
    /\ posts tail = []
    /\ urls tail = repeat (reports_url workspace_id) n
    /\ exec (UploadReport.main w
               {| UploadReport.Args.workspace_id := workspace_id;
                  UploadReport.Args.report_name := report_name |})
       = (inr tt,
          {| gets := n;
             log := script_upload_log w access_token workspace_id report_name data
                    ++ tail |}).
Proof.
  intros Henv Hsc. unfold exec.
  rewrite (script_accepted _ _ _ access_token data) by done.
  cbn [UploadReport.Args.workspace_id UploadReport.Args.report_name].
  match goal with |- context [UploadReport.fetch_report_id _ _ _ _ ?s] =>
    destruct (confirm_cases w (bearer access_token) workspace_id report_name s)
      as [(_ & _ & ->) | (k & report_id & Hk & _ & _ & _ & ->)] end.
  - exists 8%nat. eexists. split_and!; [lia | lia | | |].
    3: { cbn [gets log start app]. rewrite <- !app_assoc. reflexivity. }
    + unfold posts. rewrite !List.filter_app.
      fold (posts (missed_rounds (reports_url workspace_id) (bearer access_token) (seq 0 8))).
      by rewrite posts_missed.
    + rewrite !urls_app, urls_missed. done.
  - exists (S k). eexists. split_and!; [lia | lia | | |].
    3: { cbn [gets log start app]. rewrite <- !app_assoc. reflexivity. }
    + unfold posts. rewrite !List.filter_app.
      fold (posts (missed_rounds (reports_url workspace_id) (bearer access_token) (seq 0 k))).
      rewrite posts_missed. by destruct (PyStr.truthy report_id).
    + rewrite !urls_app, urls_missed, length_seq.
      replace (urls (if PyStr.truthy report_id
                     then success_lines workspace_id report_name report_id
                     else unconfirmed_lines workspace_id)) with (@nil string)
        by (by destruct (PyStr.truthy report_id)).
      cbn [urls]. rewrite app_nil_r.
      by rewrite <- repeat_cons.
Qed.

End Runs.

(** ** The claims about the upload and the stages before it *)

(** C1. Once the token and the artifact are there, a run of the service
    sends exactly one POST, to
    [{API}/groups/{workspaceId}/imports?datasetDisplayName={reportName}&nameConflict=CreateOrOverwrite],
    with the bearer header and a multipart body of one field ["file"]
    whose filename is [{reportName}.pbix], whose content is the artifact
    and whose content type is [application/vnd.ms-powerbi.pbix]; the
    script's [upload_to_workspace] logs one line, that same single POST,
    and one more line, whatever the answer. *)
Theorem C1_upload_sends_exactly_one_import_post
    (w : world) (workspace_id report_name access_token : string)
    (data : list Byte.byte) :
  token_result w !! "access_token" = Some access_token ->
  blob_result w = inr data ->
  let the_post :=
    Post ("https://api.powerbi.com/v1.0/myorg" +:+ "/groups/" +:+ workspace_id
          +:+ "/imports?datasetDisplayName=" +:+ report_name
          +:+ "&nameConflict=CreateOrOverwrite")
         {[ "Authorization" := "Bearer " +:+ access_token ]}
         {[ "file" := {| filename := report_name +:+ ".pbix";
                         content := data;
                         content_type := "application/vnd.ms-powerbi.pbix" |} ]} in
  posts (log (exec (Main.upload_report w
                      {| Main.UploadRequest.workspace_id := workspace_id;
                         Main.UploadRequest.report_name := report_name |})).2)
  = [the_post]
  /\ forall s : state,
       exists (outcome : exn + gmap string string) (line1 line2 : string),
         UploadReport.upload_to_workspace w access_token workspace_id report_name data s
         = (outcome,
            {| gets := gets s;
               log := log s ++ [Print line1; the_post; Print line2] |}).
Proof.
  intros Htok Hblob the_post. split.
  - destruct (accepted_dec (status_code (import_response w))) as [Hsc|Hsc].
    + destruct (service_accepted_run w workspace_id report_name access_token data
                  Htok Hblob Hsc) as (n & response & _ & ->).
      cbn [snd log]. unfold posts. rewrite List.filter_app.
      fold (posts (rounds (reports_url workspace_id) (bearer access_token) n)).
      by rewrite posts_rounds.
    + unfold exec. by rewrite (service_rejected _ _ _ access_token data).
  - intros s.
    destruct (accepted_dec (status_code (import_response w))) as [Hsc|Hsc].
    + rewrite script_upload_accepted by done. by eexists _, _, _.
    + rewrite script_upload_rejected by done. by eexists _, _, _.
Qed.

(** C2. With the token and the artifact at hand, the run goes on after
    the upload exactly when the status code is 200, 201 or 202.  For any
    other code the service raises [HTTPException] with that status code
    and the response text as its detail, and the script prints the line
    with that status code and the response text and exits with code 1;
    in both, the import request is the last request of the run: no
    sleep and no listing request follows. *)
Theorem C2_upload_accepted_iff_200_201_202
    (w : world) (workspace_id report_name access_token : string)
    (data : list Byte.byte) :
  token_result w !! "access_token" = Some access_token ->
  blob_result w = inr data ->
  let resp := import_response w in
  let service :=
    exec (Main.upload_report w
            {| Main.UploadRequest.workspace_id := workspace_id;
               Main.UploadRequest.report_name := report_name |}) in
  let script :=
    exec (UploadReport.main w
            {| UploadReport.Args.workspace_id := workspace_id;
               UploadReport.Args.report_name := report_name |}) in
  (Spec.classify (status_code resp) = Spec.Accepted
   <-> status_code resp = 200 \/ status_code resp = 201 \/ status_code resp = 202)
  /\ (Spec.classify (status_code resp) = Spec.Accepted
      <-> exists response, service.1 = inr response)
  /\ (Spec.classify (status_code resp) = Spec.Rejected ->
      service
      = (inl (HTTPException (status_code resp) (text resp)),
         {| gets := 0;
            log := [token_request w; blob_request w;
                    import_request access_token workspace_id report_name data] |})
      /\ listing_calls (log service.2) = [])
  /\ (env_complete w ->
      (Spec.classify (status_code resp) = Spec.Accepted <-> script.1 = inr tt)
      /\ (Spec.classify (status_code resp) = Spec.Rejected ->
          script
          = (inl (SystemExit 1),
             {| gets := 0;
                log := [token_request w; Print acquired_line;
                        blob_request w; Print (downloaded_line w data);
                        Print (uploading_line workspace_id report_name);
                        import_request access_token workspace_id report_name data;
                        Print ("ERROR: Upload failed (" +:+ pretty (status_code resp)
                               +:+ "): " +:+ text resp)] |})
          /\ listing_calls (log script.2) = [])).
Proof.
  intros Htok Hblob resp service script.
  assert (Hrej : Spec.classify (status_code resp) = Spec.Rejected
                 -> ~ accepted (status_code resp)).
  { intros Hc Hacc. apply accepted_classify in Hacc. congruence. }
  assert (Hcases : Spec.classify (status_code resp) = Spec.Accepted
                   \/ Spec.classify (status_code resp) = Spec.Rejected).
  { destruct (Spec.classify _); auto. }
  assert (Hservice_rej : Spec.classify (status_code resp) = Spec.Rejected ->
    service
    = (inl (HTTPException (status_code resp) (text resp)),
       {| gets := 0;
          log := [token_request w; blob_request w;
                  import_request access_token workspace_id report_name data] |})).
  { intros Hc. unfold service, exec.
    by rewrite (service_rejected _ _ _ access_token data) by auto. }
  split_and!.
  - rewrite <- accepted_classify. unfold accepted.
    rewrite !elem_of_cons, elem_of_nil. tauto.
  - split.
    + intros Hc. apply accepted_classify in Hc.
      destruct (service_accepted_run w workspace_id report_name access_token data
                  Htok Hblob Hc) as (n & response & _ & E).
      exists response. unfold service. by rewrite E.
    + intros [response E]. destruct Hcases as [|Hc]; [done|].
      rewrite (Hservice_rej Hc) in E. done.
  - intros Hc. split; [auto|]. by rewrite (Hservice_rej Hc).
  - intros Henv.
    assert (Hscript_rej : Spec.classify (status_code resp) = Spec.Rejected ->
      script
      = (inl (SystemExit 1),
         {| gets := 0;
            log := script_upload_log w access_token workspace_id report_name data
                   ++ [Print (rejected_line resp)] |})).
    { intros Hc. unfold script, exec.
      by rewrite (script_rejected _ _ _ access_token data) by auto. }
    split; [split|].
    3: { intros Hc. split; [auto|]. by rewrite (Hscript_rej Hc). }
    + intros Hc. apply accepted_classify in Hc.
      destruct (script_accepted_run w workspace_id report_name access_token data
                  Htok Hblob Henv Hc) as (n & tail & _ & _ & _ & E).
      unfold script. by rewrite E.
    + intros E. destruct Hcases as [|Hc]; [done|].
      rewrite (Hscript_rej Hc) in E. done.
Qed.

(** C7. When the identity provider's result has no [access_token], the
    run fails at once: the service raises [HTTPException] 500 whose
    detail carries the provider's [error_description], the script prints
    that description and exits with code 1.  The log of the run holds the
    one token request (and, in the script, the error line) and nothing
    else: no second token request, no call to the store, no call to the
    platform. *)
Theorem C7_missing_token_ends_the_run_first
    (w : world) (body : Main.UploadRequest.t) (args : UploadReport.Args.t) :
  token_result w !! "access_token" = None ->
  let description := PyStr.fmt (token_result w !! "error_description") in
  exec (Main.upload_report w body)
  = (inl (HTTPException 500 ("Token error: " +:+ description)),
     {| gets := 0; log := [token_request w] |})
  /\ List.filter is_store_or_platform (log (exec (Main.upload_report w body)).2) = []
  /\ (env_complete w ->
      exec (UploadReport.main w args)
      = (inl (SystemExit 1),
         {| gets := 0;
            log := [token_request w;
                    Print ("ERROR: Failed to acquire token: " +:+ description)] |})
      /\ List.filter is_store_or_platform (log (exec (UploadReport.main w args)).2) = [])
  /\ (forall d : string,
        token_result w !! "error_description" = Some d -> description = d).
Proof.
  intros Htok description.
  assert (Hservice := service_token_missing w body start Htok).
  split_and!.
  - done.
  - unfold exec. by rewrite Hservice.
  - intros Henv.
    assert (Hscript := script_token_missing w args start Henv Htok).
    unfold exec. by rewrite Hscript.
  - intros d Hd. unfold description. by rewrite Hd.
Qed.

(** C8. When the store raises while the artifact is fetched, the
    service's [download_empty_pbix] turns the exception into an
    [HTTPException] 500 whose detail carries the cause, whereas the
    script's [download_empty_pbix] hands the store's exception on as it
    is; in both programs the run ends there. *)
Theorem C8_store_error_wrapped_by_service_only
    (w : world) (msg : string) (s : state) :
  blob_result w = inl msg ->
  Main.download_empty_pbix w s
  = (inl (HTTPException 500 ("Blob download failed: " +:+ msg)),
     {| gets := gets s; log := log s ++ [blob_request w] |})
  /\ UploadReport.download_empty_pbix w s
     = (inl (StoreException msg),
        {| gets := gets s; log := log s ++ [blob_request w] |})
  /\ (forall (access_token : string) (body : Main.UploadRequest.t)
             (args : UploadReport.Args.t),
        token_result w !! "access_token" = Some access_token ->
        exec (Main.upload_report w body)
        = (inl (HTTPException 500 ("Blob download failed: " +:+ msg)),
           {| gets := 0; log := [token_request w; blob_request w] |})
        /\ (env_complete w ->
            exec (UploadReport.main w args)
            = (inl (StoreException msg),
               {| gets := 0;
                  log := [token_request w; Print acquired_line; blob_request w] |}))).
Proof.
  intros Hblob. split_and!.
  - by apply service_download_wraps.
  - by apply script_download_raises.
  - intros access_token body args Htok. split.
    + unfold exec. by rewrite (service_blob_failed _ _ _ access_token msg).
    + intros Henv. unfold exec.
      by rewrite (script_blob_failed _ _ _ access_token msg).
Qed.

(** ** URLs *)

Lemma count_append (c : ascii) (a b : string) :
  PyStr.count c (a +:+ b) = (PyStr.count c a + PyStr.count c b)%nat.
Proof.
  induction a as [|d a IH]; [done|].
  simpl. rewrite IH. lia.
Qed.

Lemma split_length (c : ascii) (s : string) :
  length (PyStr.split c s) = S (PyStr.count c s).
Proof.
  induction s as [|d s IH]; [done|].
  cbn [PyStr.split PyStr.count]. destruct (Ascii.eqb c d).
  - cbn. by rewrite IH.
  - destruct (PyStr.split c s); cbn in *; lia.
Qed.

(** C10. The import URL and the listing URL that the programs pass to
    the HTTP library are the fixed text with the caller's strings put in
    as they are.  A run that has its token and its artifact sends its
    POST to exactly the import URL and, once the upload is accepted,
    its one to eight GETs to exactly the listing URL; [fetch_report_id]
    sends at least one GET, each to exactly the listing URL, from every
    state, and the script's [upload_to_workspace] sends its request to
    exactly the import URL.  Nothing is escaped on the way: every
    character occurs in these URLs as often as in the fixed text, the
    workspace id and the report name together, and the import URL splits
    at ['&'] into two fields plus one more for every ['&'] of the
    workspace id and of the report name. *)
Theorem C10_urls_are_built_without_encoding
    (w : world) (workspace_id report_name access_token : string)
    (data : list Byte.byte) :
  token_result w !! "access_token" = Some access_token ->
  blob_result w = inr data ->
  let import_url :=
    "https://api.powerbi.com/v1.0/myorg/groups/" +:+ workspace_id
    +:+ "/imports?datasetDisplayName=" +:+ report_name
    +:+ "&nameConflict=CreateOrOverwrite" in
  let listing_url :=
    "https://api.powerbi.com/v1.0/myorg/groups/" +:+ workspace_id +:+ "/reports" in
  (exists n : nat,
     urls (log (exec (Main.upload_report w
                        {| Main.UploadRequest.workspace_id := workspace_id;
                           Main.UploadRequest.report_name := report_name |})).2)
     = import_url :: repeat listing_url n
     /\ (accepted (status_code (import_response w)) -> (1 <= n <= 8)%nat)
     /\ (~ accepted (status_code (import_response w)) -> n = 0%nat))
  /\ (env_complete w ->
      exists n : nat,
        urls (log (exec (UploadReport.main w
                           {| UploadReport.Args.workspace_id := workspace_id;
                              UploadReport.Args.report_name := report_name |})).2)
        = import_url :: repeat listing_url n
        /\ (accepted (status_code (import_response w)) -> (1 <= n <= 8)%nat)
        /\ (~ accepted (status_code (import_response w)) -> n = 0%nat))
  /\ (forall (headers : gmap string string) (s : state),
        exists (n : nat) (service_events script_events : list event),
          (1 <= n <= 8)%nat
          /\ log (Main.fetch_report_id w headers workspace_id report_name s).2
             = log s ++ service_events
          /\ urls service_events = repeat listing_url n
          /\ log (UploadReport.fetch_report_id w headers workspace_id report_name s).2
             = log s ++ script_events
          /\ urls script_events = repeat listing_url n)
  /\ (forall (token : string) (bytes : list Byte.byte) (s : state),
        exists events : list event,
          log (UploadReport.upload_to_workspace w token workspace_id report_name bytes s).2
          = log s ++ events
          /\ urls events = [import_url])
  /\ (forall c : ascii,
        PyStr.count c import_url
        = (PyStr.count c (upload_url "" "")
           + PyStr.count c workspace_id + PyStr.count c report_name)%nat
        /\ PyStr.count c listing_url
           = (PyStr.count c (reports_url "") + PyStr.count c workspace_id)%nat)
  /\ length (PyStr.split "&" import_url)
     = (2 + PyStr.count "&" workspace_id + PyStr.count "&" report_name)%nat.
Proof.
  intros Htok Hblob import_url listing_url.
  assert (Hcount : forall c : ascii,
    PyStr.count c import_url
    = (PyStr.count c (upload_url "" "")
       + PyStr.count c workspace_id + PyStr.count c report_name)%nat).
  { intros c. unfold import_url, upload_url.
    rewrite !count_append. cbn [PyStr.count]. lia. }
  split_and!.
  - destruct (accepted_dec (status_code (import_response w))) as [Hsc|Hsc].
    + destruct (service_accepted_run w workspace_id report_name access_token data
                  Htok Hblob Hsc) as (n & response & Hn & ->).
      exists n. cbn [snd log]. split_and!; [|done|done].
      by rewrite urls_app, urls_rounds.
    + exists 0%nat. unfold exec.
      rewrite (service_rejected _ _ _ access_token data) by done.
      split_and!; [done | done | done].
  - intros Henv.
    destruct (accepted_dec (status_code (import_response w))) as [Hsc|Hsc].
    + destruct (script_accepted_run w workspace_id report_name access_token data
                  Htok Hblob Henv Hsc) as (n & tail & Hn & _ & Hurls & ->).
      exists n. cbn [snd log]. split_and!; [|done|done].
      by rewrite urls_app, Hurls.
    + exists 0%nat. unfold exec.
      rewrite (script_rejected _ _ _ access_token data) by done.
      split_and!; [done | done | done].
  - intros headers s.
    destruct (confirm_cases w headers workspace_id report_name s)
      as [(_ & -> & ->) | (k & report_id & Hk & _ & _ & -> & ->)]; cbn [snd log].
    + exists 8%nat. eexists _, _. split_and!; [lia | lia | done | | done |].
      * apply urls_rounds.
      * by rewrite urls_missed.
    + exists (S k). eexists _, _. split_and!; [lia | lia | done | | done |].
      * apply urls_rounds.
      * rewrite urls_app, urls_missed, length_seq. cbn [urls].
        by rewrite <- repeat_cons.
  - intros token bytes s.
    destruct (accepted_dec (status_code (import_response w))) as [Hsc|Hsc].
    + rewrite script_upload_accepted by done. by eexists.
    + rewrite script_upload_rejected by done. by eexists.
  - intros c. split; [apply Hcount|].
    unfold listing_url, reports_url. rewrite !count_append. cbn [PyStr.count]. lia.
  - rewrite split_length, Hcount. done.
Qed.

(** ** The scenarios of the specification, run on the sample worlds *)

Lemma sample_env_complete (w : world) :
  environ w = Sample.env -> env_complete w.
Proof. intros E. unfold env_complete. rewrite E. repeat constructor. Qed.

Lemma never_visible_has_no_match (k : nat) (report_name : string) :
  ~ has_match Sample.never_visible (listing_response Sample.never_visible k) report_name.
Proof. intros [_ H]. cbn in H. by apply Exists_nil in H. Qed.

(** Scenario A: listed on the first poll, confirmed after one listing request. *)
Example scenario_A_confirmed_on_first_attempt :
  exec (Main.upload_report Sample.visible_at_once Sample.body)
  = (inr {| Main.UploadResponse.message := "Report uploaded successfully";
            Main.UploadResponse.workspace_id := "W1";
            Main.UploadResponse.report_name := "Report-X";
            Main.UploadResponse.report_id := Some "r-1" |},
     {| gets := 1;
        log := [token_request Sample.visible_at_once;
                blob_request Sample.visible_at_once;
                import_request "tok" "W1" "Report-X" Sample.data;
                Sleep 3; listing_request "tok" "W1"] |}).
Proof. vm_compute. reflexivity. Qed.

(** Scenario E: of "Sales" and "sales", a request for "SALES" gets the first. *)
Example scenario_E_first_of_two_matches :
  Main.find_report Sample.visible_third Sample.sales "SALES" = Some "id-1"
  /\ UploadReport.find_report Sample.visible_third Sample.sales "SALES" = Some "id-1".
Proof. split; reflexivity. Qed.

(** Two failed listings do not end the confirmation: the third attempt finds the report. *)
Example failed_listings_then_found :
  Main.fetch_report_id Sample.visible_third (bearer "tok") "W1" "SALES" start
  = (inr (Some "id-1"),
     {| gets := 3; log := rounds (reports_url "W1") (bearer "tok") 3 |})
  /\ (UploadReport.fetch_report_id Sample.visible_third (bearer "tok") "W1" "SALES" start).1
     = inr (Some "id-1")
  /\ without_prints
       (log (UploadReport.fetch_report_id Sample.visible_third (bearer "tok") "W1" "SALES" start).2)
     = rounds (reports_url "W1") (bearer "tok") 3.
Proof. split_and!; vm_compute; reflexivity. Qed.

(** A report name with an ['&'] adds a query field to the import URL. *)
Example ampersand_adds_a_query_field :
  PyStr.split "&" (upload_url "W1" "A&nameConflict=Abort")
  = ["https://api.powerbi.com/v1.0/myorg/groups/W1/imports?datasetDisplayName=A";
     "nameConflict=Abort";
     "nameConflict=CreateOrOverwrite"].
Proof. reflexivity. Qed.

(** C1 on scenario A. *)
Lemma C1_one_import_post_scenario_A :
  posts (log (exec (Main.upload_report Sample.visible_at_once Sample.body)).2)
  = [Post "https://api.powerbi.com/v1.0/myorg/groups/W1/imports?datasetDisplayName=Report-X&nameConflict=CreateOrOverwrite"
          {[ "Authorization" := "Bearer tok" ]}
          {[ "file" := {| filename := "Report-X.pbix";
                          content := Sample.data;
                          content_type := "application/vnd.ms-powerbi.pbix" |} ]}].
Proof.
  refine (proj1 (C1_upload_sends_exactly_one_import_post
                   Sample.visible_at_once "W1" "Report-X" "tok" Sample.data _ _));
    reflexivity.
Defined.

(** C2 on scenario D: a 400 with body "Invalid dataset". *)
Lemma C2_rejected_scenario_D :
  (exec (Main.upload_report Sample.invalid_dataset Sample.body)).1
  = inl (HTTPException 400 "Invalid dataset")
  /\ listing_calls (log (exec (Main.upload_report Sample.invalid_dataset Sample.body)).2) = []
  /\ (exec (UploadReport.main Sample.invalid_dataset Sample.args)).1 = inl (SystemExit 1)
  /\ last (log (exec (UploadReport.main Sample.invalid_dataset Sample.args)).2)
     = Some (Print "ERROR: Upload failed (400): Invalid dataset").
Proof.
  destruct (C2_upload_accepted_iff_200_201_202
              Sample.invalid_dataset "W1" "Report-X" "tok" Sample.data
              eq_refl eq_refl) as (_ & _ & Hservice & Hscript).
  destruct (Hservice eq_refl) as [E1 L1].
  destruct (Hscript (sample_env_complete Sample.invalid_dataset eq_refl))
    as [_ Hrej].
  destruct (Hrej eq_refl) as [E2 L2].
  change (exec (Main.upload_report Sample.invalid_dataset Sample.body)) with
    (exec (Main.upload_report Sample.invalid_dataset
             {| Main.UploadRequest.workspace_id := "W1";
                Main.UploadRequest.report_name := "Report-X" |})).
  change (exec (UploadReport.main Sample.invalid_dataset Sample.args)) with
    (exec (UploadReport.main Sample.invalid_dataset
             {| UploadReport.Args.workspace_id := "W1";
                UploadReport.Args.report_name := "Report-X" |})).
  rewrite E1, E2. split_and!; reflexivity.
Defined.

(** C5 on scenario B: accepted with 202, never listed. *)
Lemma C5_unconfirmed_scenario_B :
  (exec (Main.upload_report Sample.never_visible Sample.body)).1
  = inr {| Main.UploadResponse.message :=
             "Upload accepted but report ID not yet confirmed";
           Main.UploadResponse.workspace_id := "W1";
           Main.UploadResponse.report_name := "Report-X";
           Main.UploadResponse.report_id := None |}
  /\ gets (exec (Main.upload_report Sample.never_visible Sample.body)).2 = 8%nat
  /\ (exec (UploadReport.main Sample.never_visible Sample.args)).1 = inr tt.
Proof.
  destruct (C5_accepted_but_unconfirmed
              Sample.never_visible "W1" "Report-X" "tok" Sample.data
              eq_refl eq_refl) as (_ & _ & Hservice & Hscript).
  - unfold accepted. cbn. set_solver.
  - intros k _. apply never_visible_has_no_match.
  - specialize (Hscript (sample_env_complete Sample.never_visible eq_refl)).
    change (exec (Main.upload_report Sample.never_visible Sample.body)) with
      (exec (Main.upload_report Sample.never_visible
               {| Main.UploadRequest.workspace_id := "W1";
                  Main.UploadRequest.report_name := "Report-X" |})).
    change (exec (UploadReport.main Sample.never_visible Sample.args)) with
      (exec (UploadReport.main Sample.never_visible
               {| UploadReport.Args.workspace_id := "W1";
                  UploadReport.Args.report_name := "Report-X" |})).
    rewrite Hservice, Hscript. split_and!; reflexivity.
Defined.

(** C7 on scenario C: an error description instead of a token. *)
Lemma C7_bad_secret_scenario_C :
  exec (Main.upload_report Sample.bad_secret Sample.body)
  = (inl (HTTPException 500 "Token error: AADSTS7000215: Invalid client secret"),
     {| gets := 0; log := [token_request Sample.bad_secret] |})
  /\ exec (UploadReport.main Sample.bad_secret Sample.args)
     = (inl (SystemExit 1),
        {| gets := 0;
           log := [token_request Sample.bad_secret;
                   Print "ERROR: Failed to acquire token: AADSTS7000215: Invalid client secret"] |}).
Proof.
  destruct (C7_missing_token_ends_the_run_first
              Sample.bad_secret Sample.body Sample.args eq_refl)
    as (Hservice & _ & Hscript & _).
  destruct (Hscript (sample_env_complete Sample.bad_secret eq_refl)) as [E _].
  split; [exact Hservice | exact E].
Defined.

(** C8 on a missing blob: the service wraps the error, the script does not. *)
Lemma C8_blob_missing_in_both_programs :
  (exec (Main.upload_report Sample.blob_missing Sample.body)).1
  = inl (HTTPException 500 "Blob download failed: BlobNotFound")
  /\ (exec (UploadReport.main Sample.blob_missing Sample.args)).1
     = inl (StoreException "BlobNotFound").
Proof.
  destruct (C8_store_error_wrapped_by_service_only
              Sample.blob_missing "BlobNotFound" start eq_refl) as (_ & _ & Hruns).
  destruct (Hruns "tok" Sample.body Sample.args eq_refl) as [E1 E2].
  specialize (E2 (sample_env_complete Sample.blob_missing eq_refl)).
  rewrite E1, E2. split; reflexivity.
Defined.

(** C10 on a report name that carries a second [nameConflict] parameter:
    the POST goes to a URL with three query fields, the eight GETs to the
    listing URL. *)
Lemma C10_injected_parameter :
  exists sent : list string,
    urls (log (exec (Main.upload_report Sample.never_visible
                       {| Main.UploadRequest.workspace_id := "W1";
                          Main.UploadRequest.report_name := "A&nameConflict=Abort" |})).2)
    = sent
    /\ List.map (PyStr.split "&") (firstn 1 sent)
       = [["https://api.powerbi.com/v1.0/myorg/groups/W1/imports?datasetDisplayName=A";
           "nameConflict=Abort";
           "nameConflict=CreateOrOverwrite"]]
    /\ skipn 1 sent = repeat "https://api.powerbi.com/v1.0/myorg/groups/W1/reports" 8.
Proof.
  destruct (C10_urls_are_built_without_encoding
              Sample.never_visible "W1" "A&nameConflict=Abort" "tok" Sample.data
              eq_refl eq_refl) as ((n & Hurls & _) & _).
  assert (Hn : n = 8%nat).
  { assert (Hlen : length (urls (log (exec (Main.upload_report Sample.never_visible
                       {| Main.UploadRequest.workspace_id := "W1";
                          Main.UploadRequest.report_name := "A&nameConflict=Abort" |})).2))
                   = 9%nat) by (vm_compute; reflexivity).
    rewrite Hurls in Hlen. cbn [length] in Hlen. rewrite repeat_length in Hlen.
    by injection Hlen. }
  subst n. eexists. split; [exact Hurls|]. split; reflexivity.
Defined.

Lemma visible_third_fails_twice (j : nat) (report_name : string) :
  (j < 2)%nat -> ~ has_match Sample.visible_third (listing_response Sample.visible_third j) report_name.
Proof.
  intros Hj [Hok _]. destruct j as [|[|j]]; [done | done | lia].
Qed.

Lemma visible_third_shows_sales :
  has_match Sample.visible_third (listing_response Sample.visible_third 2) "SALES".
Proof.
  split; [done|]. apply Exists_cons_tl, Exists_cons_hd. reflexivity.
Qed.

(** C3 on two failed listings followed by a listing that shows the report. *)
Lemma C3_found_on_third_attempt :
  (Main.fetch_report_id Sample.visible_third (bearer "tok") "W1" "SALES" start).1
  = inr (Some "id-1")
  /\ gets (Main.fetch_report_id Sample.visible_third (bearer "tok") "W1" "SALES" start).2
     = 3%nat
  /\ (UploadReport.fetch_report_id Sample.visible_third (bearer "tok") "W1" "SALES" start).1
     = inr (Some "id-1").
Proof.
  destruct (C3_confirm_polls_at_most_eight_times
              Sample.visible_third (bearer "tok") "W1" "SALES" start)
    as (n & result & script_events & E1 & E2 & _ & _ & Hfirst).
  destruct (Hfirst 2%nat) as (-> & -> & _).
  - lia.
  - exact visible_third_shows_sales.
  - intros j Hj. by apply visible_third_fails_twice.
  - rewrite E1, E2. split_and!; reflexivity.
Defined.

(** C4 on the same world: the failed first listing is followed by a second request. *)
Lemma C4_failure_then_next_attempt :
  (2 <= gets (Main.fetch_report_id Sample.visible_third (bearer "tok") "W1" "SALES" start).2)%nat
  /\ Main.fetch_report_id (failures_as_not_found Sample.visible_third)
       (bearer "tok") "W1" "SALES" start
     = Main.fetch_report_id Sample.visible_third (bearer "tok") "W1" "SALES" start.
Proof.
  destruct (C4_listing_failure_is_not_found_yet
              Sample.visible_third (bearer "tok") "W1" "SALES" start)
    as (Hsame & _ & Hnext & _).
  split; [|exact Hsame].
  destruct (Hnext 0%nat) as [H _].
  - lia.
  - reflexivity.
  - intros j Hj. lia.
  - exact H.
Defined.

(** C6 on scenario E: the first of "Sales" and "sales" answers "SALES". *)
Lemma C6_first_of_sales :
  Main.find_report Sample.visible_third Sample.sales "SALES" = Some "id-1".
Proof.
  apply (proj1 (C6_first_case_insensitive_match_wins
                  Sample.visible_third Sample.sales "SALES")).
  exists [ {| Report.name := "Budget"; Report.id := "id-0" |} ],
         {| Report.name := "Sales"; Report.id := "id-1" |},
         [ {| Report.name := "sales"; Report.id := "id-2" |} ].
  split_and!; [reflexivity | | reflexivity | reflexivity].
  constructor; [intros H; discriminate H | constructor].
Defined.

(** C9 on scenario A: the report is visible at once, and the sleep still comes first. *)
Lemma C9_sleep_first_scenario_A :
  exists events : list event,
    log (Main.fetch_report_id Sample.visible_at_once (bearer "tok") "W1" "Report-X" start).2
    = events
    /\ head events = Some (Sleep 3)
    /\ 3 <= slept events.
Proof.
  destruct (C9_sleep_precedes_every_listing_call
              Sample.visible_at_once (bearer "tok") "W1" "Report-X" start)
    as (service_events & script_events & E & _ & Hhead & _ & _ & _ & _ & _ & Hslept & _).
  exists service_events. by split_and!.
Defined.

(** ** Beyond the claims: the script's check of its environment *)

Lemma missing_env_nil (w : world) : missing_env w = [] <-> env_complete w.
Proof.
  unfold missing_env, env_complete. generalize UploadReport.required_env.
  induction l as [|v l IH]; [by split; [constructor|]|].
  cbn [List.filter]. rewrite Forall_cons.
  destruct (PyStr.truthy_opt (environ w !! v)); cbn [negb].
  - rewrite IH. tauto.
  - split; [done | by intros [? _]].
Qed.

Lemma script_env_missing (w : world) (args : UploadReport.Args.t) (s : state) :
  missing_env w <> [] ->
  UploadReport.main w args s
  = (inl (SystemExit 1),
     {| gets := gets s;
        log := log s ++ [Print ("ERROR: Missing environment variables: "
                                +:+ PyStr.join ", " (missing_env w))] |}).
Proof.
  intros Hmissing. unfold UploadReport.main.
  change (List.filter _ UploadReport.required_env) with (missing_env w).
  destruct (missing_env w) as [|v l]; [done|]. by run_unfold.
Qed.

Lemma not_truthy_opt (o : option string) :
  PyStr.truthy_opt o = false <-> o = None \/ o = Some "".
Proof.
  destruct o as [[|c s]|]; cbn; split; try done; auto.
  - intros [|]; done.
Qed.

(** The first event of a script run with a complete environment. *)
Lemma script_starts_with_token_request (w : world) (args : UploadReport.Args.t) :
  env_complete w ->
  head (log (exec (UploadReport.main w args)).2) = Some (token_request w).
Proof.
  intros Henv. unfold exec.
  destruct (token_result w !! "access_token") as [access_token|] eqn:Htok.
  - destruct (blob_result w) as [msg|data] eqn:Hblob.
    + by rewrite (script_blob_failed _ _ _ access_token msg).
    + destruct (accepted_dec (status_code (import_response w))) as [Hsc|Hsc].
      * destruct args as [workspace_id report_name].
        destruct (script_accepted_run w workspace_id report_name access_token data
                    Htok Hblob Henv Hsc) as (n & tail & _ & _ & _ & E).
        unfold exec in E. by rewrite E.
      * by rewrite (script_rejected _ _ _ access_token data).
  - by rewrite script_token_missing.
Qed.

(** X1. The script checks its six environment variables before anything
    else.  A variable counts as missing when it is unset or empty.  When
    at least one is missing the run prints the missing names, in the
    fixed order and joined by a comma and a space, exits with code 1 and
    sends nothing; otherwise the first thing the run does is to ask for
    the token. *)
Theorem X1_script_checks_environment_first
    (w : world) (args : UploadReport.Args.t) :
  (forall v : string,
     In v (missing_env w)
     <-> In v UploadReport.required_env
         /\ (environ w !! v = None \/ environ w !! v = Some ""))
  /\ (missing_env w <> [] ->
      exec (UploadReport.main w args)
      = (inl (SystemExit 1),
         {| gets := 0;
            log := [Print ("ERROR: Missing environment variables: "
                           +:+ PyStr.join ", " (missing_env w))] |}))
  /\ (missing_env w = [] ->
      head (log (exec (UploadReport.main w args)).2) = Some (token_request w)).
Proof.
  split_and!.
  - intros v. unfold missing_env. rewrite filter_In, negb_true_iff.
    by rewrite not_truthy_opt.
  - intros Hmissing. unfold exec. by rewrite script_env_missing.
  - intros Hnil. by apply script_starts_with_token_request, missing_env_nil.
Qed.

(** X1 on an environment with an empty secret and no container name. *)
Lemma X1_two_variables_missing :
  exec (UploadReport.main MoreSamples.incomplete_env Sample.args)
  = (inl (SystemExit 1),
     {| gets := 0;
        log := [Print "ERROR: Missing environment variables: CLIENT_SECRET, BLOB_CONTAINER"] |}).
Proof.
  apply (proj1 (proj2 (X1_script_checks_environment_first
                         MoreSamples.incomplete_env Sample.args))).
  vm_compute. discriminate.
Defined.

(** ** Beyond the claims: the confirmed outcome *)

(** X2. When the upload is accepted and attempt [k] is the first whose
    listing shows the report, the run ends normally after [k + 1]
    listing requests and hands the found id on.  Which closing message is
    given depends on the truth value of that id, not on the match: a
    non-empty id gives the success message (service) or the success
    lines (script), an empty id gives the "not confirmed" wording even
    though the report was found. *)
Theorem X2_confirmed_outcome_follows_truthiness_of_id
    (w : world) (workspace_id report_name access_token : string)
    (data : list Byte.byte) (k : nat) (report_id : string) :
  token_result w !! "access_token" = Some access_token ->
  blob_result w = inr data ->
  accepted (status_code (import_response w)) ->
  (k < 8)%nat ->
  attempt_hit w (listing_response w k) report_name = Some report_id ->
  (forall j : nat, (j < k)%nat ->
     attempt_hit w (listing_response w j) report_name = None) ->
  exec (Main.upload_report w
          {| Main.UploadRequest.workspace_id := workspace_id;
             Main.UploadRequest.report_name := report_name |})
  = (inr {| Main.UploadResponse.message :=
              if PyStr.truthy report_id
              then "Report uploaded successfully"
              else "Upload accepted but report ID not yet confirmed";
            Main.UploadResponse.workspace_id := workspace_id;
            Main.UploadResponse.report_name := report_name;
            Main.UploadResponse.report_id := Some report_id |},
     {| gets := S k;
        log := [token_request w; blob_request w;
                import_request access_token workspace_id report_name data]
               ++ rounds (reports_url workspace_id) (bearer access_token) (S k) |})
  /\ (env_complete w ->
      exec (UploadReport.main w
              {| UploadReport.Args.workspace_id := workspace_id;
                 UploadReport.Args.report_name := report_name |})
      = (inr tt,
         {| gets := S k;
            log := script_upload_log w access_token workspace_id report_name data
                   ++ [Print (accepted_line (import_response w))]
                   ++ missed_rounds (reports_url workspace_id) (bearer access_token) (seq 0 k)
                   ++ [Sleep 3; Get (reports_url workspace_id) (bearer access_token)]
                   ++ (if PyStr.truthy report_id
                       then success_lines workspace_id report_name report_id
                       else unconfirmed_lines workspace_id) |})).
Proof.
  intros Htok Hblob Hsc Hk Hhit Hmiss. split.
  - unfold exec. rewrite (service_accepted _ _ _ access_token data) by done.
    cbn [Main.UploadRequest.workspace_id Main.UploadRequest.report_name].
    rewrite main_fetch_unfold.
    rewrite (main_poll_hit _ _ _ _ _ _ k report_id); [done | by cbn | done | done].
  - intros Henv. unfold exec.
    rewrite (script_accepted _ _ _ access_token data) by done.
    cbn [UploadReport.Args.workspace_id UploadReport.Args.report_name].
    rewrite script_fetch_unfold.
    rewrite (script_poll_hit _ _ _ _ _ _ k report_id); [| by cbn | done | done].
    rewrite take_seq, Nat.min_l by lia.
    cbn [gets log start app]. by rewrite <- !app_assoc.
Qed.

(** X2 on the world whose third listing shows "Sales" for the request "SALES". *)
Lemma X2_confirmed_on_third_attempt :
  (exec (Main.upload_report Sample.visible_third
           {| Main.UploadRequest.workspace_id := "W1";
              Main.UploadRequest.report_name := "SALES" |})).1
  = inr {| Main.UploadResponse.message := "Report uploaded successfully";
           Main.UploadResponse.workspace_id := "W1";
           Main.UploadResponse.report_name := "SALES";
           Main.UploadResponse.report_id := Some "id-1" |}.
Proof.
  destruct (X2_confirmed_outcome_follows_truthiness_of_id
              Sample.visible_third "W1" "SALES" "tok" Sample.data 2 "id-1")
    as [E _].
  - reflexivity.
  - reflexivity.
  - unfold accepted. cbn. set_solver.
  - lia.
  - reflexivity.
  - intros j Hj. destruct j as [|[|j]]; [reflexivity | reflexivity | lia].
  - by rewrite E.
Defined.

(** A report found with an empty id: the id is handed on, with the
    "not yet confirmed" message. *)
Example found_with_empty_id :
  (exec (Main.upload_report MoreSamples.empty_id Sample.body)).1
  = inr {| Main.UploadResponse.message :=
             "Upload accepted but report ID not yet confirmed";
           Main.UploadResponse.workspace_id := "W1";
           Main.UploadResponse.report_name := "Report-X";
           Main.UploadResponse.report_id := Some "" |}
  /\ gets (exec (Main.upload_report MoreSamples.empty_id Sample.body)).2 = 1%nat.
Proof. split; vm_compute; reflexivity. Qed.

(** ** Beyond the claims: time spent waiting *)

(** X3. The confirm operation sleeps exactly 3 seconds per listing
    request, so at most 24 seconds in all, and exactly 24 seconds
    whenever it returns [None]. *)
Theorem X3_confirm_waits_three_seconds_per_request
    (w : world) (headers : gmap string string)
    (workspace_id report_name : string) (s : state) :
  exists (n : nat) (result : option string) (service_events script_events : list event),
    Main.fetch_report_id w headers workspace_id report_name s
    = (inr result, {| gets := gets s + n; log := log s ++ service_events |})
    /\ UploadReport.fetch_report_id w headers workspace_id report_name s
       = (inr result, {| gets := gets s + n; log := log s ++ script_events |})
    /\ slept service_events = 3 * Z.of_nat n
    /\ slept script_events = 3 * Z.of_nat n
    /\ 3 * Z.of_nat n <= 24
    /\ (result = None -> 3 * Z.of_nat n = 24).
Proof.
  destruct (confirm_cases w headers workspace_id report_name s)
    as [(_ & -> & ->) | (k & report_id & Hk & _ & _ & -> & ->)].
  - exists 8%nat, None. eexists _, _. by split_and!.
  - exists (S k), (Some report_id). eexists _, _. split_and!; try done; try lia.
    + by rewrite slept_rounds.
    + rewrite slept_app, slept_missed, length_seq. cbn [slept]. lia.
Qed.

(** X3 on the world that never shows the report: 24 seconds. *)
Lemma X3_full_wait_when_never_visible :
  exists events : list event,
    log (Main.fetch_report_id Sample.never_visible (bearer "tok") "W1" "Report-X" start).2
    = events
    /\ slept events = 24.
Proof.
  destruct (X3_confirm_waits_three_seconds_per_request
              Sample.never_visible (bearer "tok") "W1" "Report-X" start)
    as (n & result & service_events & script_events & E & _ & Hslept & _ & _ & Hnone).
  exists service_events. rewrite E. split; [reflexivity|].
  rewrite Hslept. apply Hnone.
  assert (Hres : (Main.fetch_report_id Sample.never_visible (bearer "tok")
                    "W1" "Report-X" start).1 = inr None) by reflexivity.
  rewrite E in Hres. by injection Hres.
Defined.

(** ** Beyond the claims: the two programs side by side *)

Lemma without_prints_lines_nil (l : list string) :
  without_prints (List.map Print l) = [].
Proof. induction l as [|x l IH]; [done|]. by cbn. Qed.

Lemma platform_headers_without_prints (l : list event) :
  platform_headers (without_prints l) = platform_headers l.
Proof.
  induction l as [|e l IH]; [done|].
  destruct e; cbn; fold (without_prints l); by rewrite ?IH.
Qed.

Lemma platform_headers_app (l1 l2 : list event) :
  platform_headers (l1 ++ l2) = platform_headers l1 ++ platform_headers l2.
Proof.
  induction l1 as [|e l1 IH]; [done|].
  destruct e; cbn; by rewrite IH.
Qed.

Lemma platform_headers_rounds (url : string) (headers : gmap string string) (n : nat) :
  platform_headers (rounds url headers n) = repeat headers n.
Proof. induction n as [|n IH]; [done|]. cbn. by rewrite IH. Qed.

(** An accepted upload: both runs end normally after the same polling. *)
Lemma accepted_run_cases
    (w : world) (workspace_id report_name access_token : string)
    (data : list Byte.byte) :
  token_result w !! "access_token" = Some access_token ->
  blob_result w = inr data ->
  accepted (status_code (import_response w)) ->
  exists (n : nat) (result : option string) (tail : list event),
    (1 <= n <= 8)%nat
    /\ Main.fetch_report_id w (bearer access_token) workspace_id report_name start
       = (inr result,
          {| gets := n;
             log := rounds (reports_url workspace_id) (bearer access_token) n |})
    /\ exec (Main.upload_report w
               {| Main.UploadRequest.workspace_id := workspace_id;
                  Main.UploadRequest.report_name := report_name |})
       = (inr {| Main.UploadResponse.message :=
                   if PyStr.truthy_opt result
                   then "Report uploaded successfully"
                   else "Upload accepted but report ID not yet confirmed";
                 Main.UploadResponse.workspace_id := workspace_id;
                 Main.UploadResponse.report_name := report_name;
                 Main.UploadResponse.report_id := result |},
          {| gets := n;
             log := [token_request w; blob_request w;
                     import_request access_token workspace_id report_name data]
                    ++ rounds (reports_url workspace_id) (bearer access_token) n |})
    /\ (env_complete w ->
        exec (UploadReport.main w
                {| UploadReport.Args.workspace_id := workspace_id;
                   UploadReport.Args.report_name := report_name |})
        = (inr tt,
           {| gets := n;
              log := script_upload_log w access_token workspace_id report_name data
                     ++ Print (accepted_line (import_response w)) :: tail |}))
    /\ without_prints tail
       = rounds (reports_url workspace_id) (bearer access_token) n.
Proof.
  intros Htok Hblob Hsc.
  destruct (first_hit_cases w report_name 0 8)
    as [Hmiss | (k & report_id & Hk & Hhit & Hmiss)].
  - exists 8%nat, None,
      (missed_rounds (reports_url workspace_id) (bearer access_token) (seq 0 8)
       ++ unconfirmed_lines workspace_id).
    split_and!; [lia | lia | | | |].
    + rewrite main_fetch_unfold, main_poll_miss; [done | by apply Hmiss].
    + unfold exec. rewrite (service_accepted _ _ _ access_token data) by done.
      cbn [Main.UploadRequest.workspace_id Main.UploadRequest.report_name].
      rewrite main_fetch_unfold, main_poll_miss; [done | by apply Hmiss].
    + intros Henv. unfold exec.
      rewrite (script_accepted _ _ _ access_token data) by done.
      cbn [UploadReport.Args.workspace_id UploadReport.Args.report_name].
      rewrite script_fetch_unfold, script_poll_miss; [| by apply Hmiss].
      cbn [gets log length start app]. by rewrite <- !app_assoc.
    + by rewrite without_prints_app, without_prints_missed.
  - exists (S k), (Some report_id),
      (missed_rounds (reports_url workspace_id) (bearer access_token) (seq 0 k)
       ++ [Sleep 3; Get (reports_url workspace_id) (bearer access_token)]
       ++ (if PyStr.truthy report_id
           then success_lines workspace_id report_name report_id
           else unconfirmed_lines workspace_id)).
    split_and!; [lia | lia | | | |].
    + rewrite main_fetch_unfold.
      rewrite (main_poll_hit _ _ _ _ _ _ k report_id); [done | by cbn | done | done].
    + unfold exec. rewrite (service_accepted _ _ _ access_token data) by done.
      cbn [Main.UploadRequest.workspace_id Main.UploadRequest.report_name].
      rewrite main_fetch_unfold.
      rewrite (main_poll_hit _ _ _ _ _ _ k report_id); [done | by cbn | done | done].
    + intros Henv. unfold exec.
      rewrite (script_accepted _ _ _ access_token data) by done.
      cbn [UploadReport.Args.workspace_id UploadReport.Args.report_name].
      rewrite script_fetch_unfold.
      rewrite (script_poll_hit _ _ _ _ _ _ k report_id); [| by cbn | done | done].
      rewrite take_seq, Nat.min_l by lia.
      cbn [gets log start app]. by rewrite <- !app_assoc.
    + rewrite !without_prints_app, without_prints_missed, length_seq.
      replace (without_prints (if PyStr.truthy report_id
                               then success_lines workspace_id report_name report_id
                               else unconfirmed_lines workspace_id))
        with (@nil event) by (by destruct (PyStr.truthy report_id)).
      rewrite app_nil_r. apply rounds_snoc.
Qed.

(** The script's run is the service's run with printed lines added. *)
Lemma runs_alike
    (w : world) (workspace_id report_name : string) :
  env_complete w ->
  let service :=
    exec (Main.upload_report w
            {| Main.UploadRequest.workspace_id := workspace_id;
               Main.UploadRequest.report_name := report_name |}) in
  let script :=
    exec (UploadReport.main w
            {| UploadReport.Args.workspace_id := workspace_id;
               UploadReport.Args.report_name := report_name |}) in
  without_prints (log script.2) = log service.2
  /\ gets script.2 = gets service.2
  /\ ((exists response, service.1 = inr response) <-> script.1 = inr tt).
Proof.
  intros Henv service script. unfold service, script, exec.
  destruct (token_result w !! "access_token") as [access_token|] eqn:Htok.
  - destruct (blob_result w) as [msg|data] eqn:Hblob.
    + rewrite (service_blob_failed _ _ _ access_token msg) by done.
      rewrite (script_blob_failed _ _ _ access_token msg) by done.
      split_and!; [done | done |]. split; [by intros [? ?] | done].
    + destruct (accepted_dec (status_code (import_response w))) as [Hsc|Hsc].
      * destruct (accepted_run_cases w workspace_id report_name access_token data
                    Htok Hblob Hsc) as (n & result & tail & _ & _ & E1 & E2 & Htail).
        specialize (E2 Henv). unfold exec in E1, E2. rewrite E1, E2.
        cbn [fst snd gets log]. split_and!; [| done | split; eauto].
        rewrite without_prints_app.
        change (without_prints (Print (accepted_line (import_response w)) :: tail))
          with (without_prints tail).
        by rewrite Htail.
      * rewrite (service_rejected _ _ _ access_token data) by done.
        rewrite (script_rejected _ _ _ access_token data) by done.
        split_and!; [done | done |]. split; [by intros [? ?] | done].
  - rewrite service_token_missing, script_token_missing by done.
    split_and!; [done | done |]. split; [by intros [? ?] | done].
Qed.

(** X4. With a complete environment, the script and the service do the
    same things to the outside for the same workspace and report name:
    leaving the script's printed lines out, the two logs are equal event
    by event (token request, download, import request, sleeps and
    listing requests), and one run ends normally exactly when the other
    does. *)
Theorem X4_script_and_service_act_alike
    (w : world) (workspace_id report_name : string) :
  env_complete w ->
  let service :=
    exec (Main.upload_report w
            {| Main.UploadRequest.workspace_id := workspace_id;
               Main.UploadRequest.report_name := report_name |}) in
  let script :=
    exec (UploadReport.main w
            {| UploadReport.Args.workspace_id := workspace_id;
               UploadReport.Args.report_name := report_name |}) in
  without_prints (log script.2) = log service.2
  /\ gets script.2 = gets service.2
  /\ ((exists response, service.1 = inr response) <-> script.1 = inr tt).
Proof. apply runs_alike. Qed.

(** X4 on scenario D. *)
Lemma X4_alike_when_rejected :
  without_prints (log (exec (UploadReport.main Sample.invalid_dataset Sample.args)).2)
  = log (exec (Main.upload_report Sample.invalid_dataset Sample.body)).2.
Proof.
  exact (proj1 (X4_script_and_service_act_alike Sample.invalid_dataset "W1" "Report-X"
                  (sample_env_complete Sample.invalid_dataset eq_refl))).
Defined.

(** ** Beyond the claims: what the script prints while it polls *)

Lemma prints_app (l1 l2 : list event) : prints (l1 ++ l2) = prints l1 ++ prints l2.
Proof.
  induction l1 as [|e l1 IH]; [done|].
  destruct e; cbn; by rewrite IH.
Qed.

Lemma prints_missed (url : string) (headers : gmap string string) (attempts : list nat) :
  prints (missed_rounds url headers attempts) = List.map retry_line attempts.
Proof. induction attempts as [|a rest IH]; [done|]. cbn. by rewrite IH. Qed.

(** X7. While it polls, the script prints one "Attempt i: report not
    found yet, retrying..." line after every listing request that did
    not show the report, numbered from 1 in order, and nothing else.  A
    confirmation that succeeds at its [n]-th request has printed [n - 1]
    such lines; one that gives up has printed all 8, the last of them
    after the final request, when no retry follows. *)
Theorem X7_script_prints_one_line_per_miss
    (w : world) (headers : gmap string string)
    (workspace_id report_name : string) (s : state) :
  exists (misses : nat) (events : list event),
    log (UploadReport.fetch_report_id w headers workspace_id report_name s).2
    = log s ++ events
    /\ prints events = List.map retry_line (seq 0 misses)
    /\ (forall report_id : string,
          (UploadReport.fetch_report_id w headers workspace_id report_name s).1
          = inr (Some report_id) ->
          gets (UploadReport.fetch_report_id w headers workspace_id report_name s).2
          = (gets s + S misses)%nat)
    /\ ((UploadReport.fetch_report_id w headers workspace_id report_name s).1 = inr None ->
        misses = 8%nat
        /\ last events = Some (Print "  Attempt 8: report not found yet, retrying...")).
Proof.
  destruct (confirm_cases w headers workspace_id report_name s)
    as [(_ & _ & ->) | (k & report_id & Hk & _ & _ & _ & ->)]; cbn [fst snd log gets].
  - exists 8%nat. eexists. split_and!; [done | | done | done].
    by rewrite prints_missed.
  - exists k. eexists. split_and!; [done | | done | done].
    rewrite prints_app, prints_missed. cbn. by rewrite app_nil_r.
Qed.

(** X7 on the world whose third listing shows the report: two lines. *)
Lemma X7_two_lines_before_the_third_attempt :
  exists events : list event,
    log (UploadReport.fetch_report_id Sample.visible_third (bearer "tok") "W1" "SALES" start).2
    = events
    /\ prints events
       = ["  Attempt 1: report not found yet, retrying...";
          "  Attempt 2: report not found yet, retrying..."].
Proof.
  destruct (X7_script_prints_one_line_per_miss
              Sample.visible_third (bearer "tok") "W1" "SALES" start)
    as (misses & events & E & Hprints & Hfound & _).
  exists events. split; [exact E|].
  assert (Hm : misses = 2%nat).
  { specialize (Hfound "id-1" eq_refl). vm_compute in Hfound. lia. }
  rewrite Hprints, Hm. reflexivity.
Defined.

(** ** Beyond the claims: one token for the whole run *)

Lemma token_requests_rounds (url : string) (headers : gmap string string) (n : nat) :
  List.filter is_token_request (rounds url headers n) = [].
Proof. induction n as [|n IH]; [done|]. by cbn. Qed.

Lemma token_requests_without_prints (l : list event) :
  List.filter is_token_request (without_prints l) = List.filter is_token_request l.
Proof.
  induction l as [|e l IH]; [done|].
  destruct e; cbn; fold (without_prints l); by rewrite ?IH.
Qed.

(** What the service has sent by the end of a run that got its token. *)
Lemma service_token_and_headers
    (w : world) (workspace_id report_name access_token : string) :
  token_result w !! "access_token" = Some access_token ->
  let service :=
    exec (Main.upload_report w
            {| Main.UploadRequest.workspace_id := workspace_id;
               Main.UploadRequest.report_name := report_name |}) in
  List.filter is_token_request (log service.2) = [token_request w]
  /\ exists n : nat, platform_headers (log service.2) = repeat (bearer access_token) n.
Proof.
  intros Htok service. unfold service, exec.
  destruct (blob_result w) as [msg|data] eqn:Hblob.
  - rewrite (service_blob_failed _ _ _ access_token msg) by done.
    split; [done | by exists 0%nat].
  - destruct (accepted_dec (status_code (import_response w))) as [Hsc|Hsc].
    + destruct (accepted_run_cases w workspace_id report_name access_token data
                  Htok Hblob Hsc) as (n & result & tail & _ & _ & E & _).
      unfold exec in E. rewrite E. cbn [snd log]. split.
      * by rewrite List.filter_app, token_requests_rounds.
      * exists (S n). by rewrite platform_headers_app, platform_headers_rounds.
    + rewrite (service_rejected _ _ _ access_token data) by done.
      split; [done | by exists 1%nat].
Qed.

(** X8. A run asks the identity provider for a token once, and every
    request it then sends to the platform, the import and each of the
    listing requests, carries that token as [Authorization: Bearer
    <token>]; the token is never asked for again, however long the
    polling lasts.  This holds for the service and, with a complete
    environment, for the script. *)
Theorem X8_one_token_for_every_platform_request
    (w : world) (workspace_id report_name access_token : string) :
  token_result w !! "access_token" = Some access_token ->
  let service :=
    exec (Main.upload_report w
            {| Main.UploadRequest.workspace_id := workspace_id;
               Main.UploadRequest.report_name := report_name |}) in
  let script :=
    exec (UploadReport.main w
            {| UploadReport.Args.workspace_id := workspace_id;
               UploadReport.Args.report_name := report_name |}) in
  List.filter is_token_request (log service.2) = [token_request w]
  /\ Forall (fun h => h = {[ "Authorization" := "Bearer " +:+ access_token ]})
            (platform_headers (log service.2))
  /\ (env_complete w ->
      List.filter is_token_request (log script.2) = [token_request w]
      /\ Forall (fun h => h = {[ "Authorization" := "Bearer " +:+ access_token ]})
                (platform_headers (log script.2))).
Proof.
  intros Htok service script.
  destruct (service_token_and_headers w workspace_id report_name access_token Htok)
    as [Hone [n Hheaders]].
  fold service in Hone, Hheaders.
  assert (Hall : Forall (fun h => h = {[ "Authorization" := "Bearer " +:+ access_token ]})
                        (platform_headers (log service.2))).
  { rewrite Hheaders. apply Forall_forall. intros h Hin.
    apply list_elem_of_In in Hin. by apply repeat_spec in Hin. }
  split_and!; [done | done |].
  intros Henv.
  destruct (runs_alike w workspace_id report_name Henv) as (Hlog & _ & _).
  fold service script in Hlog.
  rewrite <- token_requests_without_prints, <- platform_headers_without_prints.
  by rewrite Hlog.
Qed.

(** X8 on scenario B: one token request, nine requests with the same header. *)
Lemma X8_one_token_for_nine_requests :
  List.filter is_token_request
    (log (exec (Main.upload_report Sample.never_visible Sample.body)).2)
  = [token_request Sample.never_visible]
  /\ platform_headers (log (exec (Main.upload_report Sample.never_visible Sample.body)).2)
     = repeat {[ "Authorization" := "Bearer tok" ]} 9.
Proof.
  destruct (X8_one_token_for_every_platform_request
              Sample.never_visible "W1" "Report-X" "tok" eq_refl) as (Hone & _ & _).
  split; [exact Hone | vm_compute; reflexivity].
Defined.

(** ** Beyond the claims: the artifact is opaque *)

Lemma main_poll_with_blob (w : world) (b : string + list Byte.byte)
    (url : string) (headers : gmap string string) (name : string)
    (attempts : list nat) :
  forall s, Main.poll (with_blob w b) attempts url headers name s
            = Main.poll w attempts url headers name s.
Proof.
  induction attempts as [|a rest IH]; intros s; [done|].
  rewrite !main_poll_cons. cbn zeta. cbn [listing_response with_blob].
  by rewrite IH.
Qed.

Lemma main_fetch_with_blob (w : world) (b : string + list Byte.byte)
    (headers : gmap string string) (workspace_id name : string) (s : state) :
  Main.fetch_report_id (with_blob w b) headers workspace_id name s
  = Main.fetch_report_id w headers workspace_id name s.
Proof. rewrite !main_fetch_unfold. apply main_poll_with_blob. Qed.

(** Two accepted runs that differ in the artifact only poll alike. *)
Lemma accepted_runs_with_blobs
    (w : world) (workspace_id report_name access_token : string)
    (d1 d2 : list Byte.byte) :
  token_result w !! "access_token" = Some access_token ->
  accepted (status_code (import_response w)) ->
  exists (n : nat) (result : option string) (tail1 tail2 : list event),
    exec (Main.upload_report (with_blob w (inr d1))
            {| Main.UploadRequest.workspace_id := workspace_id;
               Main.UploadRequest.report_name := report_name |})
    = (inr {| Main.UploadResponse.message :=
                if PyStr.truthy_opt result
                then "Report uploaded successfully"
                else "Upload accepted but report ID not yet confirmed";
              Main.UploadResponse.workspace_id := workspace_id;
              Main.UploadResponse.report_name := report_name;
              Main.UploadResponse.report_id := result |},
       {| gets := n;
          log := [token_request w; blob_request w;
                  import_request access_token workspace_id report_name d1]
                 ++ rounds (reports_url workspace_id) (bearer access_token) n |})
    /\ exec (Main.upload_report (with_blob w (inr d2))
               {| Main.UploadRequest.workspace_id := workspace_id;
                  Main.UploadRequest.report_name := report_name |})
       = (inr {| Main.UploadResponse.message :=
                   if PyStr.truthy_opt result
                   then "Report uploaded successfully"
                   else "Upload accepted but report ID not yet confirmed";
                 Main.UploadResponse.workspace_id := workspace_id;
                 Main.UploadResponse.report_name := report_name;
                 Main.UploadResponse.report_id := result |},
          {| gets := n;
             log := [token_request w; blob_request w;
                     import_request access_token workspace_id report_name d2]
                    ++ rounds (reports_url workspace_id) (bearer access_token) n |})
    /\ (env_complete w ->
        (exec (UploadReport.main (with_blob w (inr d1))
                 {| UploadReport.Args.workspace_id := workspace_id;
                    UploadReport.Args.report_name := report_name |})).1 = inr tt
        /\ (exec (UploadReport.main (with_blob w (inr d2))
                    {| UploadReport.Args.workspace_id := workspace_id;
                       UploadReport.Args.report_name := report_name |})).1 = inr tt).
Proof.
  intros Htok Hsc.
  destruct (accepted_run_cases (with_blob w (inr d1)) workspace_id report_name
              access_token d1 Htok eq_refl Hsc)
    as (n1 & result1 & tail1 & _ & F1 & E1 & S1 & _).
  destruct (accepted_run_cases (with_blob w (inr d2)) workspace_id report_name
              access_token d2 Htok eq_refl Hsc)
    as (n2 & result2 & tail2 & _ & F2 & E2 & S2 & _).
  rewrite main_fetch_with_blob in F1, F2. rewrite F1 in F2.
  injection F2 as <- <- _.
  exists n1, result1, tail1, tail2. split_and!; [exact E1 | exact E2 |].
  intros Henv. split.
  - by rewrite (S1 Henv).
  - by rewrite (S2 Henv).
Qed.

(** X9. The programs never look into the artifact.  Two runs in worlds
    that differ only in the bytes the store returns end with the same
    result; in the service the two logs differ in nothing but the
    import request, which carries the bytes. *)
Theorem X9_artifact_bytes_do_not_steer_the_run
    (w : world) (workspace_id report_name : string) (d1 d2 : list Byte.byte) :
  let service := fun d : list Byte.byte =>
    exec (Main.upload_report (with_blob w (inr d))
            {| Main.UploadRequest.workspace_id := workspace_id;
               Main.UploadRequest.report_name := report_name |}) in
  let script := fun d : list Byte.byte =>
    exec (UploadReport.main (with_blob w (inr d))
            {| UploadReport.Args.workspace_id := workspace_id;
               UploadReport.Args.report_name := report_name |}) in
  (service d1).1 = (service d2).1
  /\ List.filter (fun e => negb (is_post e)) (log (service d1).2)
     = List.filter (fun e => negb (is_post e)) (log (service d2).2)
  /\ (script d1).1 = (script d2).1.
Proof.
  intros service script. unfold service, script.
  destruct (token_result w !! "access_token") as [access_token|] eqn:Htok.
  - destruct (accepted_dec (status_code (import_response w))) as [Hsc|Hsc].
    + destruct (accepted_runs_with_blobs w workspace_id report_name access_token
                  d1 d2 Htok Hsc) as (n & result & tail1 & tail2 & E1 & E2 & Hscript).
      rewrite E1, E2. split_and!; [done | done |].
      destruct (missing_env w) as [|v l] eqn:Hmissing.
      * apply missing_env_nil in Hmissing.
        destruct (Hscript Hmissing) as [-> ->]. done.
      * unfold exec.
        rewrite !script_env_missing by (by change (missing_env w <> []); rewrite Hmissing).
        done.
    + unfold exec.
      rewrite (service_rejected (with_blob w (inr d1)) _ _ access_token d1) by done.
      rewrite (service_rejected (with_blob w (inr d2)) _ _ access_token d2) by done.
      split_and!; [done | done |].
      destruct (missing_env w) as [|v l] eqn:Hmissing.
      * apply missing_env_nil in Hmissing.
        rewrite (script_rejected (with_blob w (inr d1)) _ _ access_token d1) by done.
        rewrite (script_rejected (with_blob w (inr d2)) _ _ access_token d2) by done.
        done.
      * rewrite !script_env_missing by (by change (missing_env w <> []); rewrite Hmissing).
        done.
  - unfold exec.
    rewrite (service_token_missing (with_blob w (inr d1))) by done.
    rewrite (service_token_missing (with_blob w (inr d2))) by done.
    split_and!; [done | done |].
    destruct (missing_env w) as [|v l] eqn:Hmissing.
    + apply missing_env_nil in Hmissing.
      rewrite (script_token_missing (with_blob w (inr d1))) by done.
      rewrite (script_token_missing (with_blob w (inr d2))) by done.
      done.
    + rewrite !script_env_missing by (by change (missing_env w <> []); rewrite Hmissing).
      done.
Qed.

(** X9 on an empty artifact against the sample artifact. *)
Lemma X9_empty_artifact_runs_alike :
  (exec (Main.upload_report (with_blob Sample.visible_at_once (inr [])) Sample.body)).1
  = (exec (Main.upload_report (with_blob Sample.visible_at_once (inr Sample.data))
             Sample.body)).1.
Proof.
  exact (proj1 (X9_artifact_bytes_do_not_steer_the_run
                  Sample.visible_at_once "W1" "Report-X" [] Sample.data)).
Defined.

(** ** Beyond the claims: the service and its environment *)

(** X10. The service does not check its environment.  Whatever is set,
    the first thing a request does is to call the identity provider,
    with the client id and the secret as they were read (absent when
    unset), the fixed Power BI scope, and an authority URL into which
    the tenant id is put as text: with no [TENANT_ID] the authority is
    [https://login.microsoftonline.com/None]. *)
Theorem X10_service_calls_identity_provider_unchecked
    (w : world) (body : Main.UploadRequest.t) :
  head (log (exec (Main.upload_report w body)).2)
  = Some (AcquireToken (environ w !! "CLIENT_ID")
            ("https://login.microsoftonline.com/" +:+ PyStr.fmt (environ w !! "TENANT_ID"))
            (environ w !! "CLIENT_SECRET")
            ["https://analysis.windows.net/powerbi/api/.default"])
  /\ (environ w !! "TENANT_ID" = None ->
      head (log (exec (Main.upload_report w body)).2)
      = Some (AcquireToken (environ w !! "CLIENT_ID")
                "https://login.microsoftonline.com/None"
                (environ w !! "CLIENT_SECRET")
                ["https://analysis.windows.net/powerbi/api/.default"])).
Proof.
  assert (Hhead : head (log (exec (Main.upload_report w body)).2)
                  = Some (token_request w)).
  { destruct body as [workspace_id report_name]. unfold exec.
    destruct (token_result w !! "access_token") as [access_token|] eqn:Htok.
    - destruct (blob_result w) as [msg|data] eqn:Hblob.
      + by rewrite (service_blob_failed _ _ _ access_token msg).
      + destruct (accepted_dec (status_code (import_response w))) as [Hsc|Hsc].
        * destruct (accepted_run_cases w workspace_id report_name access_token data
                      Htok Hblob Hsc) as (n & result & tail & _ & _ & E & _).
          unfold exec in E. by rewrite E.
        * by rewrite (service_rejected _ _ _ access_token data).
    - by rewrite service_token_missing. }
  split; [exact Hhead|].
  intros Htenant. rewrite Hhead. unfold token_request. by rewrite Htenant.
Qed.

(** X10 on the world with an incomplete environment: the script has
    stopped there, the service goes on to the identity provider. *)
Lemma X10_service_goes_on_with_incomplete_environment :
  head (log (exec (Main.upload_report MoreSamples.incomplete_env Sample.body)).2)
  = Some (AcquireToken (Some "client-1") "https://login.microsoftonline.com/tenant-1"
            (Some "") ["https://analysis.windows.net/powerbi/api/.default"]).
Proof.
  exact (proj1 (X10_service_calls_identity_provider_unchecked
                  MoreSamples.incomplete_env Sample.body)).
Defined.
